(** * GeminiGramAI: the tool stages of the Telegram image bot

    A shallow embedding of the four tools (prompt enhancer, image
    generation, ASCII-art fallback, Telegram reply) and of the workflow
    step that parses the inbound envelope, followed by the properties
    established about them.

    JavaScript strings are sequences of UTF-16 code units, so [length],
    [substring] and [trim] count code units exactly as the sources do.
    External collaborators (the hosted text model, the image endpoint, the
    agent, the clock) are fields of an environment record; every call a
    stage places is appended to a call log carried by the state. *)

From Stdlib Require Import String Ascii Bool NArith ZArith Lia List.
Import ListNotations.

Set Implicit Arguments.

(** ** The JavaScript runtime pieces the sources rely on *)

Module JS.

(** A string is its list of UTF-16 code units. *)
Definition jsstring := list N.

(** An ASCII literal of the sources. *)
Definition lit (s : string) : jsstring :=
  map N_of_ascii (list_ascii_of_string s).

Definition dq : jsstring := [34%N].   (* the double quote character *)
Definition nl : jsstring := [10%N].   (* line feed inside a template *)

Fixpoint jsstring_eqb (a b : jsstring) : bool :=
  match a, b with
  | [], [] => true
  | x :: a', y :: b' => N.eqb x y && jsstring_eqb a' b'
  | _, _ => false
  end.

(** WhiteSpace and LineTerminator code points of ECMAScript, the set
    that [String.prototype.trim] strips. *)
Definition isWhiteSpace (c : N) : bool :=
  (N.eqb c 0x09 || N.eqb c 0x0A || N.eqb c 0x0B || N.eqb c 0x0C ||
   N.eqb c 0x0D || N.eqb c 0x20 || N.eqb c 0xA0 || N.eqb c 0x1680 ||
   (N.leb 0x2000 c && N.leb c 0x200A) ||
   N.eqb c 0x2028 || N.eqb c 0x2029 || N.eqb c 0x202F ||
   N.eqb c 0x205F || N.eqb c 0x3000 || N.eqb c 0xFEFF)%N.

Fixpoint trimStart (s : jsstring) : jsstring :=
  match s with
  | [] => []
  | c :: r => if isWhiteSpace c then trimStart r else s
  end.

Definition trimEnd (s : jsstring) : jsstring := rev (trimStart (rev s)).

Definition trim (s : jsstring) : jsstring := trimEnd (trimStart s).

(** [s.substring(a, b)] for non-negative integer arguments: both are
    capped at the length and swapped when out of order. *)
Definition substring (s : jsstring) (a b : nat) : jsstring :=
  let a' := Nat.min a (length s) in
  let b' := Nat.min b (length s) in
  let from := Nat.min a' b' in
  let to := Nat.max a' b' in
  firstn (to - from) (skipn from s).

(** [s.startsWith(p)]. *)
Fixpoint startsWith (s p : jsstring) : bool :=
  match p, s with
  | [], _ => true
  | x :: p', y :: s' => N.eqb x y && startsWith s' p'
  | _ :: _, [] => false
  end.

(** A parameter with a default value: [undefined] takes the default. *)
Definition withDefault {A} (d : A) (o : option A) : A :=
  match o with
  | Some a => a
  | None => d
  end.

(** Truthiness of a string: only the empty string is falsy. *)
Definition truthy (s : jsstring) : bool :=
  match s with [] => false | _ => true end.

(** Decimal digits of a natural number, most significant first. *)
Fixpoint uint_digits (u : Decimal.uint) : jsstring :=
  match u with
  | Decimal.Nil => []
  | Decimal.D0 r => 48%N :: uint_digits r
  | Decimal.D1 r => 49%N :: uint_digits r
  | Decimal.D2 r => 50%N :: uint_digits r
  | Decimal.D3 r => 51%N :: uint_digits r
  | Decimal.D4 r => 52%N :: uint_digits r
  | Decimal.D5 r => 53%N :: uint_digits r
  | Decimal.D6 r => 54%N :: uint_digits r
  | Decimal.D7 r => 55%N :: uint_digits r
  | Decimal.D8 r => 56%N :: uint_digits r
  | Decimal.D9 r => 57%N :: uint_digits r
  end.

(** Rendering of an integer-valued Number inside a template literal.
    Exact for magnitudes below 10^21, where JavaScript prints plain
    decimal digits; the sources print only clamped dimensions and HTTP
    status codes. *)
Definition Number_toString (z : Z) : jsstring :=
  match z with
  | Z0 => lit "0"
  | Zpos p => uint_digits (N.to_uint (Npos p))
  | Zneg p => lit "-" ++ uint_digits (N.to_uint (Npos p))
  end.

(** A JSON numeric literal, kept exactly: the Number it denotes is the
    double nearest to [(-1)^negative * mantissa * 10^exponent10]. *)
Record number : Type := mkNumber {
  negative : bool;
  mantissa : N;
  exponent10 : Z
}.

(** The values [JSON.parse] builds, and [undefined], which reading a
    missing property yields. An object keeps its members in the order of
    the text; a repeated key is shadowed by its last occurrence. *)
#[warnings="-register-all"]
Inductive value : Type :=
| VUndefined
| VNull
| VBool (b : bool)
| VNumber (n : number)
| VString (s : jsstring)
| VArray (elements : list value)
| VObject (members : list (jsstring * value)).

(** What a [throw] carries: an [Error] object (so [instanceof Error]
    holds and [.message] is read), or any other value, kept with the
    text [String(value)] renders. *)
Inductive thrown : Type :=
| ErrorObject (name : string) (message : jsstring)
| OtherValue (rendered : jsstring).

(** [error instanceof Error ? error.message : String(error)] *)
Definition messageOrString (e : thrown) : jsstring :=
  match e with
  | ErrorObject _ m => m
  | OtherValue s => s
  end.

(** [error instanceof Error ? error.message : 'Unknown error'] *)
Definition messageOrUnknown (e : thrown) : jsstring :=
  match e with
  | ErrorObject _ m => m
  | OtherValue _ => lit "Unknown error"
  end.

(** [new Error(msg)] *)
Definition newError (msg : jsstring) : thrown := ErrorObject "Error" msg.

(** [String(error)], as a template literal renders a caught value: an
    [Error] object prints its name and message. *)
Definition String_of_thrown (e : thrown) : jsstring :=
  match e with
  | ErrorObject name m =>
      match name, m with
      | EmptyString, _ => m
      | _, [] => lit name
      | _, _ => lit name ++ lit ": " ++ m
      end
  | OtherValue s => s
  end.

(** How the evaluation of a piece of code ends. *)
Inductive completion (A : Type) : Type :=
| Normal (a : A)
| Throw (e : thrown).
Arguments Throw {A} e.


(** Uppercase hexadecimal digit. *)
Definition hexDigit (n : N) : N :=
  (if n <? 10 then 48 + n else 55 + n)%N.

(** [%XX] for one octet. *)
Definition percentOctet (b : N) : jsstring :=
  [37%N; hexDigit (b / 16); hexDigit (b mod 16)].

(** UTF-8 octets of a code point. *)
Definition utf8 (cp : N) : list N :=
  (if cp <? 0x80 then [cp]
   else if cp <? 0x800 then [0xC0 + cp / 64; 0x80 + cp mod 64]
   else if cp <? 0x10000 then
     [0xE0 + cp / 4096; 0x80 + (cp / 64) mod 64; 0x80 + cp mod 64]
   else
     [0xF0 + cp / 262144; 0x80 + (cp / 4096) mod 64;
      0x80 + (cp / 64) mod 64; 0x80 + cp mod 64])%N.

(** Characters [encodeURIComponent] leaves alone: letters, digits and
    [- _ . ! ~ * ' ( )]. *)
Definition uriUnreserved (c : N) : bool :=
  ((N.leb 65 c && N.leb c 90) || (N.leb 97 c && N.leb c 122) ||
   (N.leb 48 c && N.leb c 57) ||
   N.eqb c 45 || N.eqb c 95 || N.eqb c 46 || N.eqb c 33 || N.eqb c 126 ||
   N.eqb c 42 || N.eqb c 39 || N.eqb c 40 || N.eqb c 41)%N.

Definition isHighSurrogate (c : N) : bool := (N.leb 0xD800 c && N.leb c 0xDBFF)%N.
Definition isLowSurrogate (c : N) : bool := (N.leb 0xDC00 c && N.leb c 0xDFFF)%N.

Definition uriError : thrown := ErrorObject "URIError" (lit "URI malformed").

(** [encodeURIComponent]: every other character is replaced by the
    percent-escaped UTF-8 octets of its code point; a surrogate that is
    not part of a pair raises a [URIError]. *)
Fixpoint encodeURIComponent (s : jsstring) : completion jsstring :=
  match s with
  | [] => Normal []
  | c :: rest =>
      if uriUnreserved c then
        match encodeURIComponent rest with
        | Normal r => Normal (c :: r)
        | Throw e => Throw e
        end
      else if isLowSurrogate c then Throw uriError
      else if isHighSurrogate c then
        match rest with
        | c2 :: rest2 =>
            if isLowSurrogate c2 then
              match encodeURIComponent rest2 with
              | Normal r =>
                  Normal (flat_map percentOctet
                            (utf8 ((c - 0xD800) * 0x400 + (c2 - 0xDC00) + 0x10000)%N)
                          ++ r)
              | Throw e => Throw e
              end
            else Throw uriError
        | [] => Throw uriError
        end
      else
        match encodeURIComponent rest with
        | Normal r => Normal (flat_map percentOctet (utf8 c) ++ r)
        | Throw e => Throw e
        end
  end.

(** One character of the base64 alphabet. *)
Definition base64Char (i : N) : N :=
  (if i <? 26 then 65 + i
   else if i <? 52 then 97 + (i - 26)
   else if i <? 62 then 48 + (i - 52)
   else if i =? 62 then 43 else 47)%N.

(** [Buffer.from(bytes).toString('base64')] *)
Fixpoint base64 (bytes : list N) : jsstring :=
  match bytes with
  | [] => []
  | [a] =>
      [base64Char (a / 4); base64Char ((a mod 4) * 16); 61; 61]%N
  | [a; b] =>
      [base64Char (a / 4); base64Char ((a mod 4) * 16 + b / 16);
       base64Char ((b mod 16) * 4); 61]%N
  | a :: b :: c :: rest =>
      [base64Char (a / 4); base64Char ((a mod 4) * 16 + b / 16);
       base64Char ((b mod 16) * 4 + c / 64); base64Char (c mod 64)]%N
      ++ base64 rest
  end.

(** What [fetch] resolves to, as far as the sources look at it. *)
Record response : Type := mkResponse {
  status : N;
  statusText : jsstring;
  contentTypeHeader : option jsstring;     (* headers.get('content-type') *)
  arrayBuffer : completion (list N)        (* the octets of the body *)
}.

(** [response.ok]: the status is in the range 200-299. *)
Definition ok (r : response) : bool :=
  (N.leb 200 (status r) && N.leb (status r) 299)%N.

(** The fate of a request left alone: it settles after some milliseconds,
    with a response or a rejection, or it never settles. *)
Inductive fetch_outcome : Type :=
| Settles (elapsed_ms : N) (c : completion response)
| NeverSettles.

(** The rejection of a [fetch] whose signal was aborted. *)
Definition abortError : thrown :=
  ErrorObject "AbortError" (lit "This operation was aborted").

(** A [fetch] given the signal of an [AbortController] that a timer aborts
    after [timeout_ms]: a request that has not settled by then is
    cancelled and rejects with the abort error. A request settling in the
    very millisecond the timer fires is counted as cancelled. Once the
    request has settled the timer is cleared, so reading the body is not
    under the timer. *)
Definition fetchWithAbortTimer (timeout_ms : N) (o : fetch_outcome)
    : completion response :=
  match o with
  | Settles t c => if (t <? timeout_ms)%N then c else Throw abortError
  | NeverSettles => Throw abortError
  end.

(** *** [JSON.parse] *)

Module Json.

Inductive token : Type :=
| TLBrace | TRBrace | TLBracket | TRBracket | TColon | TComma
| TString (s : jsstring)
| TNumber (n : number)
| TTrue | TFalse | TNull.

(** JSON white space: tab, line feed, carriage return, space. *)
Definition isJsonWs (c : N) : bool :=
  (N.eqb c 9 || N.eqb c 10 || N.eqb c 13 || N.eqb c 32)%N.

Definition isDigit (c : N) : bool := (N.leb 48 c && N.leb c 57)%N.

Definition isLower (c : N) : bool := (N.leb 97 c && N.leb c 122)%N.

(** Characters a numeric literal is made of. *)
Definition isNumChar (c : N) : bool :=
  (isDigit c || N.eqb c 45 || N.eqb c 43 || N.eqb c 46 ||
   N.eqb c 101 || N.eqb c 69)%N.

Definition hexValue (c : N) : option N :=
  (if isDigit c then Some (c - 48)
   else if N.leb 97 c && N.leb c 102 then Some (c - 87)
   else if N.leb 65 c && N.leb c 70 then Some (c - 55)
   else None)%N.

Fixpoint spanDigits (s : jsstring) : jsstring * jsstring :=
  match s with
  | [] => ([], [])
  | c :: r =>
      if isDigit c
      then let (d, rest) := spanDigits r in (c :: d, rest)
      else ([], s)
  end.

Definition digitsValue (d : jsstring) : N :=
  fold_left (fun acc c => acc * 10 + (c - 48))%N d 0%N.

(** The number grammar: an optional minus sign; an integer part that is
    a single zero or starts with a non-zero digit; optionally a point and
    one or more digits; optionally [e] or [E], an optional sign and one or
    more digits. *)
Definition parseNumber (s : jsstring) : option number :=
  let (neg, s1) :=
    match s with
    | 45%N :: r => (true, r)
    | _ => (false, s)
    end in
  let (int, s2) := spanDigits s1 in
  match int with
  | [] => None
  | 48%N :: _ :: _ => None
  | _ =>
      let fraction :=
        match s2 with
        | 46%N :: r =>
            let (f, r') := spanDigits r in
            match f with [] => None | _ => Some (f, r') end
        | _ => Some ([], s2)
        end in
      match fraction with
      | None => None
      | Some (frac, s3) =>
          let exponent :=
            match s3 with
            | [] => Some 0%Z
            | c :: r =>
                if (N.eqb c 101 || N.eqb c 69)%N then
                  let (eneg, r1) :=
                    match r with
                    | 45%N :: r' => (true, r')
                    | 43%N :: r' => (false, r')
                    | _ => (false, r)
                    end in
                  let (ed, r2) := spanDigits r1 in
                  match ed, r2 with
                  | _ :: _, [] =>
                      Some (if eneg then - Z.of_N (digitsValue ed)
                            else Z.of_N (digitsValue ed))%Z
                  | _, _ => None
                  end
                else None
            end in
          match exponent with
          | None => None
          | Some e =>
              Some {| negative := neg;
                      mantissa := digitsValue (int ++ frac);
                      exponent10 := e - Z.of_nat (length frac) |}
          end
      end
  end.

Definition parseWord (w : jsstring) : option token :=
  if jsstring_eqb w (lit "true") then Some TTrue
  else if jsstring_eqb w (lit "false") then Some TFalse
  else if jsstring_eqb w (lit "null") then Some TNull
  else None.

(** The scanner reads one character at a time. Accumulators hold the
    characters of the token under way in reverse. *)
Inductive lexstate : Type :=
| LIdle
| LStr (acc : jsstring)
| LEsc (acc : jsstring)
| LHex (acc : jsstring) (remaining : nat) (code : N)
| LWord (acc : jsstring)
| LNum (acc : jsstring).

(** A character met between tokens. *)
Definition idleStep (toks : list token) (c : N)
    : option (lexstate * list token) :=
  if isJsonWs c then Some (LIdle, toks)
  else if N.eqb c 123 then Some (LIdle, TLBrace :: toks)
  else if N.eqb c 125 then Some (LIdle, TRBrace :: toks)
  else if N.eqb c 91 then Some (LIdle, TLBracket :: toks)
  else if N.eqb c 93 then Some (LIdle, TRBracket :: toks)
  else if N.eqb c 58 then Some (LIdle, TColon :: toks)
  else if N.eqb c 44 then Some (LIdle, TComma :: toks)
  else if N.eqb c 34 then Some (LStr [], toks)
  else if isDigit c || N.eqb c 45 then Some (LNum [c], toks)
  else if isLower c then Some (LWord [c], toks)
  else None.

Definition lexStep (st : lexstate) (toks : list token) (c : N)
    : option (lexstate * list token) :=
  match st with
  | LIdle => idleStep toks c
  | LStr acc =>
      if N.eqb c 34 then Some (LIdle, TString (rev acc) :: toks)
      else if N.eqb c 92 then Some (LEsc acc, toks)
      else if N.ltb c 32 then None
      else Some (LStr (c :: acc), toks)
  | LEsc acc =>
      if N.eqb c 34 || N.eqb c 92 || N.eqb c 47 then Some (LStr (c :: acc), toks)
      else if N.eqb c 98 then Some (LStr (8%N :: acc), toks)
      else if N.eqb c 102 then Some (LStr (12%N :: acc), toks)
      else if N.eqb c 110 then Some (LStr (10%N :: acc), toks)
      else if N.eqb c 114 then Some (LStr (13%N :: acc), toks)
      else if N.eqb c 116 then Some (LStr (9%N :: acc), toks)
      else if N.eqb c 117 then Some (LHex acc 4 0%N, toks)
      else None
  | LHex acc remaining code =>
      match hexValue c, remaining with
      | Some h, 1 => Some (LStr ((code * 16 + h)%N :: acc), toks)
      | Some h, S k => Some (LHex acc k (code * 16 + h)%N, toks)
      | _, _ => None
      end
  | LWord acc =>
      if isLower c then Some (LWord (c :: acc), toks)
      else
        match parseWord (rev acc) with
        | Some t => idleStep (t :: toks) c
        | None => None
        end
  | LNum acc =>
      if isNumChar c then Some (LNum (c :: acc), toks)
      else
        match parseNumber (rev acc) with
        | Some n => idleStep (TNumber n :: toks) c
        | None => None
        end
  end.

(** The tokens of a text, or [None] when it is not a sequence of JSON
    tokens. *)
Fixpoint lex (st : lexstate) (toks : list token) (s : jsstring)
    : option (list token) :=
  match s with
  | c :: r =>
      match lexStep st toks c with
      | Some (st', toks') => lex st' toks' r
      | None => None
      end
  | [] =>
      match st with
      | LIdle => Some (rev toks)
      | LWord acc =>
          match parseWord (rev acc) with
          | Some t => Some (rev (t :: toks))
          | None => None
          end
      | LNum acc =>
          match parseNumber (rev acc) with
          | Some n => Some (rev (TNumber n :: toks))
          | None => None
          end
      | LStr _ | LEsc _ | LHex _ _ _ => None
      end
  end.

(** A container under construction, its finished parts in reverse; an
    object also holds the key whose value is awaited. *)
Inductive frame : Type :=
| FArray (done : list value)
| FObject (done : list (jsstring * value)) (key : option jsstring).

(** What the grammar allows next. *)
Inductive mode : Type :=
| MValue (closable : bool)   (* a value; right after [[] also []] *)
| MKey (closable : bool)     (* a key; right after [{] also [}] *)
| MColon
| MAfter                     (* a comma or the end of the container *)
| MEnd (v : value).          (* the top-level value is complete *)

(** A value has been completed under the given stack. *)
Definition complete (v : value) (stack : list frame)
    : option (list frame * mode) :=
  match stack with
  | [] => Some ([], MEnd v)
  | FArray done :: st => Some (FArray (v :: done) :: st, MAfter)
  | FObject done (Some k) :: st =>
      Some (FObject ((k, v) :: done) None :: st, MAfter)
  | FObject _ None :: _ => None
  end.

Definition parseStep (stack : list frame) (m : mode) (t : token)
    : option (list frame * mode) :=
  match m, t with
  | MValue _, TString s => complete (VString s) stack
  | MValue _, TNumber n => complete (VNumber n) stack
  | MValue _, TTrue => complete (VBool true) stack
  | MValue _, TFalse => complete (VBool false) stack
  | MValue _, TNull => complete VNull stack
  | MValue _, TLBracket => Some (FArray [] :: stack, MValue true)
  | MValue _, TLBrace => Some (FObject [] None :: stack, MKey true)
  | MValue true, TRBracket =>
      match stack with
      | FArray done :: st => complete (VArray (rev done)) st
      | _ => None
      end
  | MKey _, TString k =>
      match stack with
      | FObject done None :: st => Some (FObject done (Some k) :: st, MColon)
      | _ => None
      end
  | MKey true, TRBrace =>
      match stack with
      | FObject done None :: st => complete (VObject (rev done)) st
      | _ => None
      end
  | MColon, TColon => Some (stack, MValue false)
  | MAfter, TComma =>
      match stack with
      | FArray _ :: _ => Some (stack, MValue false)
      | FObject _ None :: _ => Some (stack, MKey false)
      | _ => None
      end
  | MAfter, TRBracket =>
      match stack with
      | FArray done :: st => complete (VArray (rev done)) st
      | _ => None
      end
  | MAfter, TRBrace =>
      match stack with
      | FObject done None :: st => complete (VObject (rev done)) st
      | _ => None
      end
  | _, _ => None
  end.

Fixpoint parseTokens (stack : list frame) (m : mode) (ts : list token)
    : option value :=
  match ts with
  | t :: r =>
      match parseStep stack m t with
      | Some (stack', m') => parseTokens stack' m' r
      | None => None
      end
  | [] =>
      match m with
      | MEnd v => Some v
      | _ => None
      end
  end.

(** The text of the [SyntaxError] varies with the input and the engine;
    one text stands for all of them. *)
Definition syntaxError : thrown :=
  ErrorObject "SyntaxError" (lit "Unexpected token in JSON").

(** [JSON.parse(text)] *)
Definition parse (text : jsstring) : completion value :=
  match lex LIdle [] text with
  | Some ts =>
      match parseTokens [] (MValue false) ts with
      | Some v => Normal v
      | None => Throw syntaxError
      end
  | None => Throw syntaxError
  end.

End Json.

(** *** Operations on parsed values *)

Definition typeError (msg : jsstring) : thrown := ErrorObject "TypeError" msg.

(** The last member stored under a key, if any. *)
Fixpoint getOwn (members : list (jsstring * value)) (key : jsstring)
    : option value :=
  match members with
  | [] => None
  | (k, v) :: rest =>
      match getOwn rest key with
      | Some v' => Some v'
      | None => if jsstring_eqb k key then Some v else None
      end
  end.

(** [v.key], for the property names the sources read ([message], [chat],
    [id], [text]): none of them is defined on a built-in prototype, so
    only an object's own members can supply them. Reading a property of
    [null] or [undefined] raises a [TypeError]. *)
Definition get (v : value) (key : jsstring) : completion value :=
  match v with
  | VUndefined =>
      Throw (typeError (lit "Cannot read properties of undefined (reading '"
                        ++ key ++ lit "')"))
  | VNull =>
      Throw (typeError (lit "Cannot read properties of null (reading '"
                        ++ key ++ lit "')"))
  | VObject members =>
      match getOwn members key with
      | Some x => Normal x
      | None => Normal VUndefined
      end
  | _ => Normal VUndefined
  end.

(** [v?.key] *)
Definition optionalGet (v : value) (key : jsstring) : completion value :=
  match v with
  | VUndefined | VNull => Normal VUndefined
  | _ => get v key
  end.

(** A Number is [0] when its literal is zero or lies at or below half the
    smallest positive double, [2^-1075]. *)
Definition numberIsZero (n : number) : bool :=
  N.eqb (mantissa n) 0
  || ((exponent10 n <? 0)%Z
      && (Z.of_N (mantissa n) * 2 ^ 1075 <=? 10 ^ (- exponent10 n))%Z).

(** Truthiness, as [||] tests it. *)
Definition valueTruthy (v : value) : bool :=
  match v with
  | VUndefined | VNull => false
  | VBool b => b
  | VNumber n => negb (numberIsZero n)
  | VString s => truthy s
  | VArray _ | VObject _ => true
  end.

Section NumberFormat.

(** [Number.prototype.toString] on the Number a literal denotes. *)
Variable formatNumber : number -> jsstring.

(** The abstract operation [ToString]. An array joins the renderings of
    its elements with commas, [null] and [undefined] rendering as nothing;
    a plain object renders as [[object Object]] unless a member named
    [toString] hides the inherited method, in which case no primitive can
    be obtained. *)
Fixpoint ToString (v : value) : completion jsstring :=
  match v with
  | VUndefined => Normal (lit "undefined")
  | VNull => Normal (lit "null")
  | VBool true => Normal (lit "true")
  | VBool false => Normal (lit "false")
  | VNumber n => Normal (formatNumber n)
  | VString s => Normal s
  | VArray elements =>
      (fix join (l : list value) : completion jsstring :=
         match l with
         | [] => Normal []
         | x :: rest =>
             let first :=
               match x with
               | VUndefined | VNull => Normal []
               | _ => ToString x
               end in
             match first, rest with
             | Throw e, _ => Throw e
             | Normal a, [] => Normal a
             | Normal a, _ :: _ =>
                 match join rest with
                 | Normal b => Normal (a ++ lit "," ++ b)
                 | Throw e => Throw e
                 end
             end
         end) elements
  | VObject members =>
      match getOwn members (lit "toString") with
      | Some _ =>
          Throw (typeError (lit "Cannot convert object to primitive value"))
      | None => Normal (lit "[object Object]")
      end
  end.

(** [v?.toString()]: nothing is called on [null] or [undefined]; an object
    with a member named [toString] holds a value there, not a function. *)
Definition optionalCallToString (callee : jsstring) (v : value)
    : completion (option jsstring) :=
  match v with
  | VUndefined | VNull => Normal None
  | VObject members =>
      match getOwn members (lit "toString") with
      | Some _ => Throw (typeError (callee ++ lit " is not a function"))
      | None => Normal (Some (lit "[object Object]"))
      end
  | _ =>
      match ToString v with
      | Normal s => Normal (Some s)
      | Throw e => Throw e
      end
  end.

End NumberFormat.

(** [v.substring(a, b)]: only a string has the method. *)
Definition callSubstring (callee : jsstring) (v : value) (a b : nat)
    : completion jsstring :=
  match v with
  | VString s => Normal (substring s a b)
  | VUndefined =>
      Throw (typeError (lit "Cannot read properties of undefined (reading 'substring')"))
  | VNull =>
      Throw (typeError (lit "Cannot read properties of null (reading 'substring')"))
  | _ => Throw (typeError (callee ++ lit " is not a function"))
  end.

End JS.

Import JS.

(** ** Effects: the call log, the logger and exceptions *)

Module Effects.

(** One call placed on an external collaborator. *)
Inductive ext_call : Type :=
| GenerateTextCall (model : jsstring) (prompt : jsstring)
| FetchCall (url : jsstring) (userAgent : jsstring)
| AgentGenerateCall (content : value) (resourceId threadId : jsstring)
                    (maxSteps : nat).

Inductive log_level : Type := Info | Warn | Error.

(** A logger line: level and label. The structured payload passed next to
    the label is not recorded; the labels drop the leading pictograph. *)
Definition log_entry : Type := (log_level * string)%type.

(** The state threaded through a stage. *)
Record world : Type := mkWorld {
  calls : list ext_call;
  logs : list log_entry
}.

Definition M (A : Type) : Type := world -> completion A * world.

Definition ret {A} (a : A) : M A := fun w => (Normal a, w).

Definition bind {A B} (m : M A) (k : A -> M B) : M B :=
  fun w =>
    match m w with
    | (Normal a, w') => k a w'
    | (Throw e, w') => (Throw e, w')
    end.

Definition throw {A} (e : thrown) : M A := fun w => (Throw e, w).

(** [try { body } catch (error) { handler }] *)
Definition try_catch {A} (body : M A) (handler : thrown -> M A) : M A :=
  fun w =>
    match body w with
    | (Normal a, w') => (Normal a, w')
    | (Throw e, w') => handler e w'
    end.

(** Lifting of a computation that touches neither log. *)
Definition lift {A} (c : completion A) : M A := fun w => (c, w).

(** Placing an external call: the call is logged, then the collaborator
    answers from the history of calls placed before this one. *)
Definition external {A} (c : ext_call)
    (answer : list ext_call -> completion A) : M A :=
  fun w => (answer (calls w), mkWorld (calls w ++ [c]) (logs w)).

(** [logger?.info(...)] and friends: nothing happens without a logger. *)
Definition log (logger : bool) (lvl : log_level) (label : string) : M unit :=
  fun w =>
    if logger
    then (Normal tt, mkWorld (calls w) (logs w ++ [(lvl, label)]))
    else (Normal tt, w).

Definition when (b : bool) (m : M unit) : M unit :=
  if b then m else ret tt.

(** A [try] block that reassigns a local variable which the [catch]
    block reads:
    [try { first; v = update(v); rest } catch (error) { handler }].
    The handler sees the value the variable holds when the failure
    happens: the old one up to the reassignment, the new one after it. *)
Definition try_catch_assign {V A} (v : V) (first : M unit)
    (update : V -> M V) (rest : V -> M A) (handler : V -> thrown -> M A)
    : M A :=
  fun w =>
    match first w with
    | (Throw e, w1) => handler v e w1
    | (Normal _, w1) =>
        match update v w1 with
        | (Throw e, w2) => handler v e w2
        | (Normal v', w2) => try_catch (rest v') (handler v') w2
        end
    end.

(** Reading a collaborator without placing a call (the clock). *)
Definition consult {A} (answer : list ext_call -> A) : M A :=
  fun w => (Normal (answer (calls w)), w).

End Effects.

Import Effects.

Declare Scope js_scope.
Delimit Scope js_scope with js.
Notation "x <- c ;; k" := (bind c (fun x => k))
  (at level 61, c at next level, right associativity) : js_scope.
Notation "c ;;; k" := (bind c (fun _ => k))
  (at level 61, right associativity) : js_scope.
Open Scope js_scope.

(** ** tools/promptEnhancerTool.ts *)

Module PromptEnhancerTool.

Record result : Type := mkResult {
  success : bool;
  enhancedPrompt : jsstring;
  originalPrompt : jsstring;
  style : jsstring;
  message : jsstring;
  error : option jsstring
}.

Definition model : jsstring := lit "gemini-1.5-flash".

(** The instruction text sent to the hosted model. *)
Definition instruction (originalPrompt style : jsstring) : jsstring :=
  lit "You are an expert at creating detailed, high-quality prompts for AI image generation. " ++ nl ++
  nl ++
  lit "Your task is to enhance this user prompt: " ++ dq ++ originalPrompt ++ dq ++ nl ++
  nl ++
  lit "Style preference: " ++ style ++ nl ++
  nl ++
  lit "Please enhance this prompt by:" ++ nl ++
  lit "1. Adding specific visual details (lighting, composition, colors)" ++ nl ++
  lit "2. Including artistic style information " ++ nl ++
  lit "3. Specifying image quality descriptors" ++ nl ++
  lit "4. Making it more descriptive while keeping the core intent" ++ nl ++
  lit "5. Ensuring it's suitable for image generation APIs" ++ nl ++
  nl ++
  lit "Keep the enhanced prompt under 400 characters and make it natural and flowing." ++ nl ++
  nl ++
  lit "Return ONLY the enhanced prompt text, nothing else:".

Section WithModel.

(** [generateText] of the [ai] package: the [text] of the answer, or the
    value it rejects with. *)
Variable generateText :
  list ext_call -> jsstring -> jsstring -> completion jsstring.

Definition enhancePrompt (originalPrompt : jsstring)
    (style : option jsstring) (logger : bool) : M result :=
  let style := withDefault (lit "realistic") style in
  log logger Info "[PromptEnhancer] Starting prompt enhancement" ;;;
  try_catch
    (when (negb (truthy originalPrompt)
           || Nat.eqb (length (trim originalPrompt)) 0)
       (throw (newError (lit "Original prompt cannot be empty"))) ;;;
     text <- external (GenerateTextCall model (instruction originalPrompt style))
               (fun history =>
                  generateText history model (instruction originalPrompt style)) ;;
     let enhancedPrompt := trim text in
     log logger Info "[PromptEnhancer] Successfully enhanced prompt" ;;;
     ret {| success := true;
            enhancedPrompt := enhancedPrompt;
            originalPrompt := originalPrompt;
            style := style;
            message := lit "Successfully enhanced prompt using Gemini AI";
            error := None |})
    (fun error =>
     log logger Error "[PromptEnhancer] Error enhancing prompt" ;;;
     (* Fallback: return original prompt with basic enhancements *)
     let fallbackPrompt :=
       originalPrompt ++ lit ", high quality, detailed, " ++ style ++
       lit " style, professional photography" in
     ret {| success := false;
            enhancedPrompt := fallbackPrompt;
            originalPrompt := originalPrompt;
            style := style;
            message := lit "Prompt enhancement failed, using fallback: " ++
                       messageOrUnknown error;
            error := Some (messageOrString error) |}).

(** [promptEnhancerTool.execute] *)
Definition execute (originalPrompt : jsstring) (style : option jsstring)
    (logger : bool) : M result :=
  log logger Info "[PromptEnhancerTool] Starting execution with params:" ;;;
  result <- enhancePrompt originalPrompt style logger ;;
  log logger Info "[PromptEnhancerTool] Completed successfully, returning:" ;;;
  ret result.

End WithModel.

End PromptEnhancerTool.

(** ** tools/imageGenerationTool.ts *)

Module ImageGenerationTool.

Record result : Type := mkResult {
  success : bool;
  imageBase64 : option jsstring;
  mimeType : option jsstring;
  message : jsstring;
  originalPrompt : jsstring;
  imageUrl : option jsstring;
  error : option jsstring
}.

(** The template literal of the request URL. *)
Definition imageUrlTemplate (encodedPrompt : jsstring) (width height : Z)
    : jsstring :=
  lit "https://image.pollinations.ai/prompt/" ++ encodedPrompt ++
  lit "?width=" ++ Number_toString width ++
  lit "&height=" ++ Number_toString height ++ lit "&seed=random".

Definition userAgent : jsstring := lit "TelegramBot/1.0".

Section WithEndpoint.

(** The image endpoint behind [fetch]: what becomes of a GET on a URL,
    given the calls placed before it. *)
Variable fetch : list ext_call -> jsstring -> fetch_outcome.

(** Width and height are integer-valued Numbers. *)
Definition generateImage (prompt : jsstring) (width height : option Z)
    (logger : bool) : M result :=
  let width := withDefault 1024%Z width in
  let height := withDefault 1024%Z height in
  log logger Info "[ImageGeneration] Starting image generation with Pollinations.ai" ;;;
  try_catch_assign prompt
    (* Input validation *)
    (when (negb (truthy prompt) || Nat.eqb (length (trim prompt)) 0)
       (throw (newError (lit "Prompt cannot be empty"))))
    (fun prompt =>
       if Nat.ltb 500 (length prompt) then
         log logger Warn "[ImageGeneration] Prompt too long, truncating" ;;;
         ret (substring prompt 0 500)
       else ret prompt)
    (fun prompt =>
       (* Ensure reasonable size limits *)
       let width := Z.min (Z.max width 256) 1024 in
       let height := Z.min (Z.max height 256) 1024 in
       (* Encode prompt for URL *)
       encodedPrompt <- lift (encodeURIComponent (trim prompt)) ;;
       let imageUrl := imageUrlTemplate encodedPrompt width height in
       log logger Info "[ImageGeneration] Fetching from Pollinations.ai" ;;;
       (* Fetch image with timeout: 30 second timeout; the timer is
          cleared when [fetch] resolves *)
       response <- external (FetchCall imageUrl userAgent)
                     (fun history =>
                        fetchWithAbortTimer 30000 (fetch history imageUrl)) ;;
       when (negb (ok response))
         (throw (newError (lit "Pollinations API failed: " ++
                           Number_toString (Z.of_N (status response)) ++
                           lit " " ++ statusText response))) ;;;
       contentType <-
         match contentTypeHeader response with
         | Some contentType =>
             if negb (truthy contentType)
                || negb (startsWith contentType (lit "image/"))
             then throw (newError (lit "Invalid content type received: " ++
                                   contentType))
             else ret contentType
         | None =>
             throw (newError (lit "Invalid content type received: " ++
                              lit "null"))
         end ;;
       imageBuffer <- lift (arrayBuffer response) ;;
       let imageBase64 := base64 imageBuffer in
       log logger Info "[ImageGeneration] Successfully generated image" ;;;
       ret {| success := true;
              imageBase64 := Some imageBase64;
              mimeType := Some contentType;
              message := [0x2705%N] ++
                lit " Successfully generated image using free AI service for: " ++
                dq ++ prompt ++ dq;
              originalPrompt := prompt;
              imageUrl := Some imageUrl;
              error := None |})
    (fun prompt error =>
       log logger Error "[ImageGeneration] Error generating image" ;;;
       ret {| success := false;
              imageBase64 := None;
              mimeType := None;
              message := [0x274C%N] ++ lit " Image generation failed: " ++
                messageOrUnknown error ++
                lit ". Will try ASCII art fallback.";
              originalPrompt := prompt;
              imageUrl := None;
              error := Some (messageOrString error) |}).

(** [imageGenerationTool.execute] *)
Definition execute (prompt : jsstring) (width height : option Z)
    (logger : bool) : M result :=
  log logger Info "[ImageGenerationTool] Starting execution with params:" ;;;
  result <- generateImage prompt width height logger ;;
  log logger Info "[ImageGenerationTool] Completed successfully, returning:" ;;;
  ret result.

End WithEndpoint.

End ImageGenerationTool.

(** ** tools/asciiArtFallbackTool.ts *)

Module AsciiArtFallbackTool.

Record result : Type := mkResult {
  success : bool;
  asciiArt : jsstring;
  description : jsstring;
  originalPrompt : jsstring;
  message : jsstring;
  error : option jsstring
}.

Definition model : jsstring := lit "gemini-1.5-flash".

(** The instruction text of the first call: the drawing. *)
Definition artInstruction (prompt : jsstring) : jsstring :=
  lit "You are an ASCII art generator. Create simple, recognizable ASCII art based on this prompt: " ++ dq ++ prompt ++ dq ++ nl ++
  nl ++
  lit "Guidelines:" ++ nl ++
  lit "1. Keep it simple and recognizable" ++ nl ++
  lit "2. Use basic ASCII characters (letters, numbers, symbols)" ++ nl ++
  lit "3. Maximum 15 lines tall and 40 characters wide" ++ nl ++
  lit "4. Make it clean and readable in monospace font" ++ nl ++
  lit "5. Focus on the main subject of the prompt" ++ nl ++
  nl ++
  lit "Create ASCII art that represents: " ++ prompt ++ nl ++
  nl ++
  lit "Return only the ASCII art, no explanations or extra text:".

(** The instruction text of the second call: the description. *)
Definition descriptionInstruction (prompt : jsstring) : jsstring :=
  lit "Create a vivid, detailed description of what an image would look like for this prompt: " ++ dq ++ prompt ++ dq ++ nl ++
  nl ++
  lit "Include:" ++ nl ++
  lit "- Main subjects and objects" ++ nl ++
  lit "- Colors and lighting" ++ nl ++
  lit "- Composition and style" ++ nl ++
  lit "- Mood and atmosphere" ++ nl ++
  lit "- Artistic details" ++ nl ++
  nl ++
  lit "Keep it engaging and imaginative, about 2-3 sentences:".

(** Simple fallback ASCII art *)
Definition fallbackArt : jsstring :=
  nl ++
  lit "    " ++ [0xAF%N] ++ lit "\_(" ++ [0x30C4%N] ++ lit ")_/" ++ [0xAF%N] ++ nl ++
  lit "  Image generation" ++ nl ++
  lit "   failed, but I" ++ nl ++
  lit "    tried my best!" ++ nl ++
  lit "    ".

Definition fallbackDescription (prompt : jsstring) : jsstring :=
  lit "I wanted to create something for " ++ dq ++ prompt ++ dq ++
  lit " but encountered an error. Here's a friendly ASCII instead!".

Section WithModel.

Variable generateText :
  list ext_call -> jsstring -> jsstring -> completion jsstring.

Definition generateAsciiArt (prompt : jsstring) (logger : bool) : M result :=
  log logger Info "[AsciiArt] Creating ASCII art fallback" ;;;
  try_catch
    (when (negb (truthy prompt) || Nat.eqb (length (trim prompt)) 0)
       (throw (newError (lit "Prompt cannot be empty"))) ;;;
     text <- external (GenerateTextCall model (artInstruction prompt))
               (fun history =>
                  generateText history model (artInstruction prompt)) ;;
     let asciiArt := trim text in
     (* Also create a descriptive text *)
     description <-
       external (GenerateTextCall model (descriptionInstruction prompt))
         (fun history =>
            generateText history model (descriptionInstruction prompt)) ;;
     log logger Info "[AsciiArt] Successfully created ASCII art and description" ;;;
     ret {| success := true;
            asciiArt := asciiArt;
            description := trim description;
            originalPrompt := prompt;
            message := [0x2728%N] ++
              lit " Created ASCII art representation using Gemini AI";
            error := None |})
    (fun error =>
     log logger Error "[AsciiArt] Error creating ASCII art" ;;;
     ret {| success := false;
            asciiArt := fallbackArt;
            description := fallbackDescription prompt;
            originalPrompt := prompt;
            message := lit "ASCII art generation failed: " ++
                       messageOrUnknown error;
            error := Some (messageOrString error) |}).

(** [asciiArtFallbackTool.execute] *)
Definition execute (prompt : jsstring) (logger : bool) : M result :=
  log logger Info "[AsciiArtFallbackTool] Starting execution with params:" ;;;
  result <- generateAsciiArt prompt logger ;;
  log logger Info "[AsciiArtFallbackTool] Completed successfully, returning:" ;;;
  ret result.

End WithModel.

End AsciiArtFallbackTool.

(** ** tools/telegramReplyTool.ts *)

Module TelegramReplyTool.

Record result : Type := mkResult {
  success : bool;
  chatId : jsstring;
  messagePreview : jsstring;
  sentAt : jsstring;
  hasImage : bool
}.

Section WithClock.

(** [new Date().toISOString()] at the moment of the call. *)
Variable now : list ext_call -> jsstring.

(** [!!imageData] for an optional string. *)
Definition doubleBang (imageData : option jsstring) : bool :=
  match imageData with
  | Some s => truthy s
  | None => false
  end.

(** Send message to Telegram: the structure is prepared, nothing is sent
    yet. *)
Definition sendTelegramMessage (chatId message : jsstring)
    (imageData : option jsstring) (logger : bool) : M result :=
  try_catch
    (log logger Info "[TelegramReply] Preparing to send message" ;;;
     sentAt <- consult now ;;
     let result :=
       {| success := true;
          chatId := chatId;
          messagePreview :=
            substring message 0 100 ++
            (if Nat.ltb 100 (length message) then lit "..." else []);
          sentAt := sentAt;
          hasImage := doubleBang imageData |} in
     log logger Info "[TelegramReply] Message prepared for sending" ;;;
     ret result)
    (fun error =>
     log logger Error "[TelegramReply] Error preparing message" ;;;
     throw (newError (lit "Failed to prepare Telegram message: " ++
                      String_of_thrown error))).

(** [telegramReplyTool.execute] *)
Definition execute (chatId message : jsstring)
    (imageData : option jsstring) (logger : bool) : M result :=
  log logger Info "[TelegramReplyTool] Starting execution with params:" ;;;
  result <- sendTelegramMessage chatId message imageData logger ;;
  log logger Info "[TelegramReplyTool] Completed successfully, returning:" ;;;
  ret result.

End WithClock.

End TelegramReplyTool.

(** ** workflows: the Telegram image bot workflow *)

Module Workflow.

(** [baseInput] *)
Record inputData : Type := mkInput {
  message : jsstring;     (* Raw message data from Telegram *)
  threadId : jsstring     (* Thread ID for conversation tracking *)
}.

(** What step 1 hands to step 2. [messageText] is whatever the envelope
    holds under [message.text], or the empty string. *)
Record agentOutput : Type := mkAgentOutput {
  response : jsstring;
  chatId : jsstring;
  messageText : value
}.

Record replyOutput : Type := mkReplyOutput {
  sent : bool;
  replyChatId : jsstring
}.

Section WithAgent.

Variable formatNumber : number -> jsstring.

(** [imageGeneratorAgent.generate]: the [text] of the agent's answer to a
    user message on a thread, or the value it rejects with. *)
Variable agentGenerate :
  list ext_call -> value -> jsstring -> completion jsstring.

(** Step 1: Use Agent *)
Definition useAgentStep (input : inputData) (logger : bool)
    : M agentOutput :=
  log logger Info "[UseAgentStep] Starting agent generation" ;;;
  (* Parse the Telegram message data *)
  messageData <- lift (Json.parse (message input)) ;;
  m <- lift (get messageData (lit "message")) ;;
  chat <- lift (optionalGet m (lit "chat")) ;;
  id <- lift (optionalGet chat (lit "id")) ;;
  idString <- lift (optionalCallToString formatNumber
                      (lit "messageData.message?.chat?.id?.toString") id) ;;
  let chatId :=
    match idString with
    | Some s => if truthy s then s else lit "unknown"
    | None => lit "unknown"
    end in
  m <- lift (get messageData (lit "message")) ;;
  text <- lift (optionalGet m (lit "text")) ;;
  let messageText := if valueTruthy text then text else VString [] in
  when logger
    (lift (callSubstring (lit "messageText.substring") messageText 0 100) ;;;
     log logger Info "[UseAgentStep] Parsed Telegram message") ;;;
  (* ONLY call agent.generate() *)
  text <- external (AgentGenerateCall messageText (lit "telegram-bot")
                      (threadId input) 5)
            (fun history => agentGenerate history messageText (threadId input)) ;;
  log logger Info "[UseAgentStep] Agent response received" ;;;
  ret {| response := text;
         chatId := chatId;
         messageText := messageText |}.

(** Step 2: Send Reply. With a logger, the line logged inside the [try]
    block cuts [inputData.messageText] to 30 code units, which throws
    into the [catch] block when the message is not a string. *)
Definition sendReplyStep (input : agentOutput) (logger : bool)
    : M replyOutput :=
  log logger Info "[SendReplyStep] Starting Telegram message send" ;;;
  try_catch
    (when logger
       (lift (callSubstring (lit "inputData.messageText.substring")
                (messageText input) 0 30) ;;;
        log logger Info "[SendReplyStep] Message prepared for Telegram") ;;;
     (* Simulate successful send for development/testing *)
     let result := {| sent := true; replyChatId := chatId input |} in
     log logger Info "[SendReplyStep] Message send completed" ;;;
     ret result)
    (fun error =>
     log logger Error "[SendReplyStep] Error sending message" ;;;
     ret {| sent := false; replyChatId := chatId input |}).

(** The workflow with exactly 2 steps. *)
Definition telegramImageBotWorkflow (input : inputData) (logger : bool)
    : M replyOutput :=
  out <- useAgentStep input logger ;;
  sendReplyStep out logger.

End WithAgent.

End Workflow.

(** * Vocabulary of the properties *)

(** The completion of a computation started in a state, and the calls
    on record when it ends. *)
Definition outcome {A} (m : M A) (w : world) : completion A := fst (m w).

Definition callsAfter {A} (m : M A) (w : world) : list ext_call :=
  calls (snd (m w)).

(** The test every stage opens with:
    [!prompt || prompt.trim().length === 0]. *)
Definition isBlank (p : jsstring) : bool :=
  negb (truthy p) || Nat.eqb (length (trim p)) 0.

(** The expression applied to [width] and to [height]:
    [Math.min(Math.max(n, 256), 1024)]. *)
Definition clampDimension (n : Z) : Z := Z.min (Z.max n 256) 1024.

(** The deterministic fallback of the prompt enhancer. *)
Definition fallbackTemplate (originalPrompt style : jsstring) : jsstring :=
  originalPrompt ++ lit ", high quality, detailed, " ++ style ++
  lit " style, professional photography".

(** The three ways the image request fails that the synthesis stage tells
    apart, each with the reason it records: the answer arrives in time
    with a status outside 200-299; it arrives in time with a good status
    but a content type that is absent or does not start with [image/];
    the timer fires first. *)
Inductive synthesisFailure : fetch_outcome -> jsstring -> Prop :=
| BadStatus (t : N) (resp : response) :
    (t < 30000)%N ->
    ok resp = false ->
    synthesisFailure (Settles t (Normal resp))
      (lit "Pollinations API failed: " ++
       Number_toString (Z.of_N (status resp)) ++ lit " " ++ statusText resp)
| MissingContentType (t : N) (resp : response) :
    (t < 30000)%N ->
    ok resp = true ->
    contentTypeHeader resp = None ->
    synthesisFailure (Settles t (Normal resp))
      (lit "Invalid content type received: null")
| BadContentType (t : N) (resp : response) (contentType : jsstring) :
    (t < 30000)%N ->
    ok resp = true ->
    contentTypeHeader resp = Some contentType ->
    startsWith contentType (lit "image/") = false ->
    synthesisFailure (Settles t (Normal resp))
      (lit "Invalid content type received: " ++ contentType)
| TimedOut (t : N) (c : completion response) :
    (30000 <= t)%N ->
    synthesisFailure (Settles t c) (lit "This operation was aborted")
| NeverAnswered :
    synthesisFailure NeverSettles (lit "This operation was aborted").

(** The object the [catch] block of the ASCII-art stage builds. *)
Definition asciiFailure (prompt : jsstring) (e : thrown)
    : AsciiArtFallbackTool.result :=
  AsciiArtFallbackTool.mkResult false
    AsciiArtFallbackTool.fallbackArt
    (AsciiArtFallbackTool.fallbackDescription prompt)
    prompt
    (lit "ASCII art generation failed: " ++ messageOrUnknown e)
    (Some (messageOrString e)).

(** The object the [catch] block of the synthesis stage builds. *)
Definition imageFailure (prompt : jsstring) (e : thrown)
    : ImageGenerationTool.result :=
  ImageGenerationTool.mkResult false None None
    ([0x274C%N] ++ lit " Image generation failed: " ++ messageOrUnknown e ++
     lit ". Will try ASCII art fallback.")
    prompt None (Some (messageOrString e)).

(** The prompt after the length check of the synthesis stage. *)
Definition truncated (prompt : jsstring) : jsstring :=
  if Nat.ltb 500 (length prompt) then substring prompt 0 500 else prompt.

(** Some worlds and collaborators to run the stages on. *)
Definition emptyWorld : world := mkWorld [] [].

Definition silentModel : list ext_call -> jsstring -> jsstring -> completion jsstring :=
  fun _ _ _ => Normal [].

Definition blankModel : list ext_call -> jsstring -> jsstring -> completion jsstring :=
  fun _ _ _ => Normal (lit " ").

(** A model that answers its first call and fails the second. *)
Definition secondCallFails : list ext_call -> jsstring -> jsstring -> completion jsstring :=
  fun history _ _ =>
    match history with
    | [] => Normal (lit "  /\_/\  ")
    | _ => Throw (newError (lit "quota exceeded"))
    end.

Definition deadEndpoint : list ext_call -> jsstring -> fetch_outcome :=
  fun _ _ => NeverSettles.

Definition pngEndpoint : list ext_call -> jsstring -> fetch_outcome :=
  fun _ _ =>
    Settles 1200
      (Normal (mkResponse 200 (lit "OK") (Some (lit "image/png"))
                 (Normal [137; 80; 78; 71]%N))).

Definition unavailableEndpoint : list ext_call -> jsstring -> fetch_outcome :=
  fun _ _ =>
    Settles 80
      (Normal (mkResponse 503 (lit "Service Unavailable")
                 (Some (lit "text/html")) (Normal []))).

Definition htmlEndpoint : list ext_call -> jsstring -> fetch_outcome :=
  fun _ _ =>
    Settles 300
      (Normal (mkResponse 200 (lit "OK") (Some (lit "text/html"))
                 (Normal (lit "<html></html>")))).

Definition slowEndpoint : list ext_call -> jsstring -> fetch_outcome :=
  fun _ _ =>
    Settles 45000
      (Normal (mkResponse 200 (lit "OK") (Some (lit "image/png"))
                 (Normal [137; 80; 78; 71]%N))).

Definition fixedClock : list ext_call -> jsstring :=
  fun _ => lit "2025-01-01T00:00:00.000Z".

Definition echoAgent : list ext_call -> value -> jsstring -> completion jsstring :=
  fun _ _ _ => Normal (lit "done").

(** ** Further vocabulary *)

(** A text all of whose code units fit in 16 bits. *)
Definition wellFormed (s : jsstring) : Prop :=
  Forall (fun c => (c < 65536)%N) s.

(** A character that can stand in a URL as it is: ASCII and not white
    space. *)
Definition urlSafe (c : N) : Prop :=
  (c < 128)%N /\ isWhiteSpace c = false.

(** A character [encodeURIComponent] can put out: one it leaves alone, or
    the percent sign of an escape. *)
Definition uriEscaped (c : N) : Prop :=
  uriUnreserved c = true \/ c = 37%N.

Definition urlSafeb (c : N) : bool :=
  N.ltb c 128 && negb (isWhiteSpace c).

(** The base64 alphabet with its padding sign. *)
Definition inBase64Alphabet (c : N) : bool :=
  ((N.leb 65 c && N.leb c 90) || (N.leb 97 c && N.leb c 122) ||
   (N.leb 48 c && N.leb c 57) || N.eqb c 43 || N.eqb c 47 || N.eqb c 61)%N.

(** A JSON text written with apostrophes standing for double quotes. *)
Definition jsonText (s : string) : jsstring :=
  map (fun c => if N.eqb c 39 then 34%N else c) (lit s).

(** A model that rejects every call. *)
Definition failingModel : list ext_call -> jsstring -> jsstring -> completion jsstring :=
  fun _ _ _ => Throw (newError (lit "network down")).

(** A model that answers every call with the same sentence. *)
Definition chattyModel : list ext_call -> jsstring -> jsstring -> completion jsstring :=
  fun _ _ _ => Normal (lit "  a tabby cat among roses, soft light  ").

(** An agent that rejects every message. *)
Definition failingAgent : list ext_call -> value -> jsstring -> completion jsstring :=
  fun _ _ _ => Throw (newError (lit "agent unavailable")).

(** A number format that prints the mantissa of a literal. *)
Definition mantissaFormat : number -> jsstring :=
  fun n => Number_toString (Z.of_N (mantissa n)).

(** A world with calls and log lines already on record. *)
Definition busyWorld : world :=
  mkWorld [GenerateTextCall (lit "gemini-1.5-flash") (lit "earlier")]
          [(Info, "earlier line"%string)].

(** A prompt with an accented letter and a character outside the basic
    plane. *)
Definition accentedPrompt : jsstring :=
  lit "a caf" ++ [0xE9; 0x20; 0xD83C; 0xDFA8]%N.

(** An envelope as Telegram sends it. *)
Definition telegramEnvelope : jsstring :=
  jsonText "{'update_id': 7, 'message': {'message_id': 3, 'chat': {'id': 12345, 'type': 'private'}, 'text': 'a cat in a garden'}}".

(** An envelope whose text is a number. *)
Definition numericTextEnvelope : jsstring :=
  jsonText "{'message': {'chat': {'id': 'c-9'}, 'text': 5}}".

(** * Properties *)

Unset Implicit Arguments.

Arguments lit : simpl never.

(** Unfolding of the stages down to the state-passing functions. *)
Ltac run :=
  unfold outcome, callsAfter,
    PromptEnhancerTool.execute, PromptEnhancerTool.enhancePrompt,
    ImageGenerationTool.execute, ImageGenerationTool.generateImage,
    AsciiArtFallbackTool.execute, AsciiArtFallbackTool.generateAsciiArt,
    TelegramReplyTool.execute, TelegramReplyTool.sendTelegramMessage,
    try_catch_assign, try_catch, bind, ret, throw, lift, external, consult,
    log, when.

(** Case analysis on the innermost scrutinee left after simplification. *)
Ltac cases :=
  repeat (simpl in *; match goal with
  | |- context [match ?x with _ => _ end] =>
      lazymatch x with
      | context [match _ with _ => _ end] => fail
      | _ => destruct x eqn:?
      end
  end); simpl in *.

(** A text that opens with a literal character is not empty. *)
Ltac opens_with_literal :=
  simpl; unfold lit; simpl; discriminate.

(** ** Strings *)

Lemma isBlank_true (p : jsstring) : trim p = [] -> isBlank p = true.
Proof.
  intros H. unfold isBlank. rewrite H. simpl. apply orb_true_r.
Qed.

Lemma isBlank_false (p : jsstring) : trim p <> [] -> isBlank p = false.
Proof.
  intros H. unfold isBlank.
  destruct p as [|c p'].
  - exfalso. apply H. reflexivity.
  - destruct (trim (c :: p')) eqn:E.
    + exfalso. apply H. reflexivity.
    + reflexivity.
Qed.

Lemma isBlank_iff (p : jsstring) : isBlank p = true <-> trim p = [].
Proof.
  split.
  - intros B. destruct (trim p) eqn:E; [reflexivity|].
    rewrite isBlank_false in B; [discriminate|].
    rewrite E. discriminate.
  - apply isBlank_true.
Qed.

Lemma substring_prefix (s : jsstring) (n : nat) :
  substring s 0 n = firstn n s.
Proof.
  unfold substring. simpl.
  rewrite Nat.sub_0_r.
  destruct (Nat.le_ge_cases n (length s)) as [L|L].
  - rewrite Nat.min_l by assumption. reflexivity.
  - rewrite Nat.min_r by assumption.
    rewrite firstn_all. symmetry. apply firstn_all2. assumption.
Qed.

Lemma substring_length (s : jsstring) (n : nat) :
  n <= length s -> length (substring s 0 n) = n.
Proof.
  intros L. rewrite substring_prefix. apply firstn_length_le. assumption.
Qed.

(** ** The prompt enhancer *)

(** What the enhancer returns, case by case: the fallback for a blank
    prompt, the trimmed answer when the model answers, the fallback when
    the call fails. *)
Lemma enhance_outcome gt (p : jsstring) (style : option jsstring)
    (lg : bool) (w : world) :
  let st := withDefault (lit "realistic") style in
  outcome (PromptEnhancerTool.execute gt p style lg) w =
  Normal
    (if isBlank p then
       PromptEnhancerTool.mkResult false (fallbackTemplate p st) p st
         (lit "Prompt enhancement failed, using fallback: " ++
          lit "Original prompt cannot be empty")
         (Some (lit "Original prompt cannot be empty"))
     else
       match gt (calls w) PromptEnhancerTool.model
               (PromptEnhancerTool.instruction p st) with
       | Normal text =>
           PromptEnhancerTool.mkResult true (trim text) p st
             (lit "Successfully enhanced prompt using Gemini AI") None
       | Throw e =>
           PromptEnhancerTool.mkResult false (fallbackTemplate p st) p st
             (lit "Prompt enhancement failed, using fallback: " ++
              messageOrUnknown e)
             (Some (messageOrString e))
       end).
Proof.
  intros st. run.
  change (negb (truthy p) || Nat.eqb (length (trim p)) 0) with (isBlank p).
  fold st.
  destruct (isBlank p); destruct lg; simpl;
    try reflexivity;
    destruct (gt (calls w) PromptEnhancerTool.model
                (PromptEnhancerTool.instruction p st));
    reflexivity.
Qed.

(** The calls the enhancer places: none for a blank prompt, one
    otherwise. *)
Lemma enhance_calls gt (p : jsstring) (style : option jsstring)
    (lg : bool) (w : world) :
  callsAfter (PromptEnhancerTool.execute gt p style lg) w =
  calls w ++
  (if isBlank p then []
   else [GenerateTextCall PromptEnhancerTool.model
           (PromptEnhancerTool.instruction p
              (withDefault (lit "realistic") style))]).
Proof.
  run.
  change (negb (truthy p) || Nat.eqb (length (trim p)) 0) with (isBlank p).
  destruct (isBlank p); destruct lg; simpl;
    rewrite ?app_nil_r; try reflexivity;
    match goal with
    | |- context [gt ?h ?m ?i] => destruct (gt h m i)
    end; reflexivity.
Qed.

Lemma fallbackTemplate_nonempty (p st : jsstring) : fallbackTemplate p st <> [].
Proof.
  unfold fallbackTemplate. intros H.
  apply app_eq_nil in H. destruct H as [_ H].
  discriminate H.
Qed.

(** C3, as the code has it. Whenever the enhancer reports failure (a blank
    prompt, or the external call throwing) its [enhancedPrompt] is the
    deterministic template, which is never empty, and [error] is
    populated; a call that throws always ends in that failure. When the
    call returns a text the enhancer reports success with the trimmed
    text, which is non-empty exactly when the text has a character that
    is not white space. *)
Theorem enhance_fallback_or_trimmed_answer gt (p : jsstring)
    (style : option jsstring) (lg : bool) (w : world) :
  let st := withDefault (lit "realistic") style in
  let answer :=
    gt (calls w) PromptEnhancerTool.model (PromptEnhancerTool.instruction p st) in
  exists r,
    outcome (PromptEnhancerTool.execute gt p style lg) w = Normal r /\
    (PromptEnhancerTool.success r = false ->
       PromptEnhancerTool.enhancedPrompt r = fallbackTemplate p st /\
       PromptEnhancerTool.enhancedPrompt r <> [] /\
       exists reason, PromptEnhancerTool.error r = Some reason) /\
    (forall e, answer = Throw e ->
       PromptEnhancerTool.success r = false /\
       (isBlank p = false ->
        PromptEnhancerTool.error r = Some (messageOrString e))) /\
    (forall text, answer = Normal text -> isBlank p = false ->
       PromptEnhancerTool.success r = true /\
       PromptEnhancerTool.enhancedPrompt r = trim text /\
       (PromptEnhancerTool.enhancedPrompt r <> [] <-> isBlank text = false)).
Proof.
  intros st answer.
  rewrite enhance_outcome. fold st. fold answer.
  eexists. split; [reflexivity|].
  destruct (isBlank p) eqn:B.
  - simpl. repeat split; try discriminate; eauto using fallbackTemplate_nonempty.
  - destruct answer as [text|e] eqn:A; simpl.
    + split; [discriminate|]. split; [discriminate|].
      intros text' E _. injection E as <-.
      split; [reflexivity|]. split; [reflexivity|].
      split.
      * intros NE. apply isBlank_false. assumption.
      * intros BF IsNil. apply isBlank_true in IsNil. congruence.
    + split.
      * intros _. repeat split; eauto using fallbackTemplate_nonempty.
      * split; [|discriminate].
        intros e' E. injection E as <-. split; [reflexivity|]. reflexivity.
Qed.

(** C3, as stated, fails: the model answers with a single space, the
    enhancer reports success and hands on an empty [enhancedPrompt]. *)
Lemma enhance_whitespace_answer_gives_empty_prompt :
  exists r,
    outcome (PromptEnhancerTool.execute blankModel (lit "a cat") None false)
      emptyWorld = Normal r /\
    PromptEnhancerTool.success r = true /\
    PromptEnhancerTool.enhancedPrompt r = [].
Proof.
  eexists. split; [reflexivity|]. split; reflexivity.
Qed.

(** ** The ASCII-art fallback *)

Lemma ascii_outcome gt (p : jsstring) (lg : bool) (w : world) :
  outcome (AsciiArtFallbackTool.execute gt p lg) w =
  Normal
    (if isBlank p then asciiFailure p (newError (lit "Prompt cannot be empty"))
     else
       match gt (calls w) AsciiArtFallbackTool.model
               (AsciiArtFallbackTool.artInstruction p) with
       | Throw e => asciiFailure p e
       | Normal text =>
           match gt (calls w ++
                     [GenerateTextCall AsciiArtFallbackTool.model
                        (AsciiArtFallbackTool.artInstruction p)])
                   AsciiArtFallbackTool.model
                   (AsciiArtFallbackTool.descriptionInstruction p) with
           | Throw e => asciiFailure p e
           | Normal description =>
               AsciiArtFallbackTool.mkResult true (trim text)
                 (trim description) p
                 ([0x2728%N] ++
                  lit " Created ASCII art representation using Gemini AI")
                 None
           end
       end).
Proof.
  run.
  change (negb (truthy p) || Nat.eqb (length (trim p)) 0) with (isBlank p).
  destruct (isBlank p); destruct lg; simpl; try reflexivity.
  all: destruct (gt (calls w) AsciiArtFallbackTool.model
                   (AsciiArtFallbackTool.artInstruction p));
    simpl; try reflexivity.
  all: cases; reflexivity.
Qed.

(** The calls the fallback places: none for a blank prompt; the drawing
    request; then, only if that one was answered, the description
    request. *)
Lemma ascii_calls gt (p : jsstring) (lg : bool) (w : world) :
  callsAfter (AsciiArtFallbackTool.execute gt p lg) w =
  calls w ++
  (if isBlank p then []
   else
     GenerateTextCall AsciiArtFallbackTool.model
       (AsciiArtFallbackTool.artInstruction p) ::
     match gt (calls w) AsciiArtFallbackTool.model
             (AsciiArtFallbackTool.artInstruction p) with
     | Throw _ => []
     | Normal _ =>
         [GenerateTextCall AsciiArtFallbackTool.model
            (AsciiArtFallbackTool.descriptionInstruction p)]
     end).
Proof.
  run.
  change (negb (truthy p) || Nat.eqb (length (trim p)) 0) with (isBlank p).
  destruct (isBlank p); destruct lg; simpl; rewrite ?app_nil_r; try reflexivity.
  all: destruct (gt (calls w) AsciiArtFallbackTool.model
                   (AsciiArtFallbackTool.artInstruction p));
    simpl; try reflexivity.
  all: cases; rewrite <- app_assoc; reflexivity.
Qed.

(** C2. When either of the two calls of the fallback stage fails, the
    result carries both placeholders, never one real value next to one
    placeholder, with [success = false] and the error of the failed call
    on record. *)
Theorem ascii_fallback_is_all_or_placeholder gt (p : jsstring) (lg : bool)
    (w : world) (e : thrown) :
  isBlank p = false ->
  (gt (calls w) AsciiArtFallbackTool.model
      (AsciiArtFallbackTool.artInstruction p) = Throw e
   \/ exists text,
        gt (calls w) AsciiArtFallbackTool.model
           (AsciiArtFallbackTool.artInstruction p) = Normal text /\
        gt (calls w ++
            [GenerateTextCall AsciiArtFallbackTool.model
               (AsciiArtFallbackTool.artInstruction p)])
           AsciiArtFallbackTool.model
           (AsciiArtFallbackTool.descriptionInstruction p) = Throw e) ->
  exists r,
    outcome (AsciiArtFallbackTool.execute gt p lg) w = Normal r /\
    AsciiArtFallbackTool.success r = false /\
    AsciiArtFallbackTool.asciiArt r = AsciiArtFallbackTool.fallbackArt /\
    AsciiArtFallbackTool.description r =
      AsciiArtFallbackTool.fallbackDescription p /\
    AsciiArtFallbackTool.error r = Some (messageOrString e) /\
    AsciiArtFallbackTool.message r =
      lit "ASCII art generation failed: " ++ messageOrUnknown e.
Proof.
  intros B Fails.
  rewrite ascii_outcome, B.
  exists (asciiFailure p e).
  split; [|repeat split].
  destruct Fails as [First | [text [First Second]]].
  - rewrite First. reflexivity.
  - rewrite First, Second. reflexivity.
Qed.

(** The same on a model that draws and then fails to describe. *)
Lemma ascii_fallback_is_all_or_placeholder_witness :
  isBlank (lit "a cat in a garden") = false /\
  exists r,
    outcome (AsciiArtFallbackTool.execute secondCallFails
               (lit "a cat in a garden") true) emptyWorld = Normal r /\
    AsciiArtFallbackTool.success r = false /\
    AsciiArtFallbackTool.asciiArt r = AsciiArtFallbackTool.fallbackArt /\
    AsciiArtFallbackTool.description r =
      AsciiArtFallbackTool.fallbackDescription (lit "a cat in a garden") /\
    AsciiArtFallbackTool.error r = Some (lit "quota exceeded") /\
    AsciiArtFallbackTool.message r =
      lit "ASCII art generation failed: " ++ lit "quota exceeded".
Proof.
  split; [reflexivity|].
  apply (ascii_fallback_is_all_or_placeholder secondCallFails
           (lit "a cat in a garden") true emptyWorld
           (newError (lit "quota exceeded"))).
  - reflexivity.
  - right. exists (lit "  /\_/\  "). split; reflexivity.
Defined.

(** ** The image synthesis stage *)

(** What the synthesis stage returns, case by case, in the order the code
    meets the cases. *)
Lemma image_outcome fetch (p : jsstring) (width height : option Z)
    (lg : bool) (w : world) :
  let wd := clampDimension (withDefault 1024%Z width) in
  let ht := clampDimension (withDefault 1024%Z height) in
  outcome (ImageGenerationTool.execute fetch p width height lg) w =
  Normal
    (if isBlank p then imageFailure p (newError (lit "Prompt cannot be empty"))
     else
       match encodeURIComponent (trim (truncated p)) with
       | Throw e => imageFailure (truncated p) e
       | Normal enc =>
           let url := ImageGenerationTool.imageUrlTemplate enc wd ht in
           match fetchWithAbortTimer 30000 (fetch (calls w) url) with
           | Throw e => imageFailure (truncated p) e
           | Normal resp =>
               if negb (ok resp) then
                 imageFailure (truncated p)
                   (newError (lit "Pollinations API failed: " ++
                              Number_toString (Z.of_N (status resp)) ++
                              lit " " ++ statusText resp))
               else
                 match contentTypeHeader resp with
                 | None =>
                     imageFailure (truncated p)
                       (newError (lit "Invalid content type received: " ++
                                  lit "null"))
                 | Some ct =>
                     if negb (truthy ct) || negb (startsWith ct (lit "image/"))
                     then
                       imageFailure (truncated p)
                         (newError (lit "Invalid content type received: " ++ ct))
                     else
                       match arrayBuffer resp with
                       | Throw e => imageFailure (truncated p) e
                       | Normal bytes =>
                           ImageGenerationTool.mkResult true
                             (Some (base64 bytes)) (Some ct)
                             ([0x2705%N] ++
                              lit " Successfully generated image using free AI service for: " ++
                              dq ++ truncated p ++ dq)
                             (truncated p) (Some url) None
                       end
                 end
           end
       end).
Proof.
  intros wd ht. subst wd ht. run.
  change (negb (truthy p) || Nat.eqb (length (trim p)) 0) with (isBlank p).
  unfold truncated, clampDimension.
  destruct (isBlank p); destruct lg; simpl; try reflexivity.
  all: cases; try reflexivity; try discriminate; try congruence.
Qed.

(** The calls the synthesis stage places: none for a blank prompt or a
    prompt that cannot be encoded, one GET otherwise. *)
Lemma image_calls fetch (p : jsstring) (width height : option Z)
    (lg : bool) (w : world) :
  callsAfter (ImageGenerationTool.execute fetch p width height lg) w =
  calls w ++
  (if isBlank p then []
   else
     match encodeURIComponent (trim (truncated p)) with
     | Throw _ => []
     | Normal enc =>
         [FetchCall
            (ImageGenerationTool.imageUrlTemplate enc
               (clampDimension (withDefault 1024%Z width))
               (clampDimension (withDefault 1024%Z height)))
            ImageGenerationTool.userAgent]
     end).
Proof.
  run.
  change (negb (truthy p) || Nat.eqb (length (trim p)) 0) with (isBlank p).
  unfold truncated, clampDimension in *.
  destruct (isBlank p); destruct lg; simpl; rewrite ?app_nil_r; try reflexivity.
  all: cases; rewrite ?app_nil_r; try reflexivity; try discriminate; try congruence.
Qed.

Lemma clampDimension_bounds (n : Z) : (256 <= clampDimension n <= 1024)%Z.
Proof.
  unfold clampDimension. lia.
Qed.

Lemma clampDimension_monotone (a b : Z) :
  (a <= b)%Z -> (clampDimension a <= clampDimension b)%Z.
Proof.
  unfold clampDimension. lia.
Qed.

Lemma truncated_long (p : jsstring) :
  500 < length p -> truncated p = firstn 500 p /\ length (truncated p) = 500.
Proof.
  intros L. unfold truncated.
  rewrite (proj2 (Nat.ltb_lt 500 (length p)) L).
  split.
  - apply substring_prefix.
  - apply substring_length. lia.
Qed.

Lemma trimStart_length (s : jsstring) : length (trimStart s) <= length s.
Proof.
  induction s as [|c r IH]; simpl.
  - constructor.
  - destruct (isWhiteSpace c); simpl; lia.
Qed.

Lemma trim_length (s : jsstring) : length (trim s) <= length s.
Proof.
  unfold trim, trimEnd.
  rewrite length_rev.
  etransitivity; [apply trimStart_length|].
  rewrite length_rev. apply trimStart_length.
Qed.

(** A text that neither starts nor ends with white space is its own
    trimmed form. *)
Lemma trim_unchanged (s : jsstring) (c d : N) (r l : jsstring) :
  s = c :: r -> s = l ++ [d] ->
  isWhiteSpace c = false -> isWhiteSpace d = false ->
  trim s = s.
Proof.
  intros Hhead Hlast Hc Hd.
  unfold trim, trimEnd.
  assert (Start : trimStart s = s).
  { rewrite Hhead. simpl. rewrite Hc. reflexivity. }
  rewrite Start.
  assert (End' : trimStart (rev s) = rev s).
  { rewrite Hlast, rev_app_distr. simpl. rewrite Hd. reflexivity. }
  rewrite End'. apply rev_involutive.
Qed.

(** C4. A successful synthesis result carries the encoded image and a
    MIME type that starts with [image/]. *)
Theorem image_success_carries_image fetch (p : jsstring)
    (width height : option Z) (lg : bool) (w : world)
    (r : ImageGenerationTool.result) :
  outcome (ImageGenerationTool.execute fetch p width height lg) w = Normal r ->
  ImageGenerationTool.success r = true ->
  exists b m,
    ImageGenerationTool.imageBase64 r = Some b /\
    ImageGenerationTool.mimeType r = Some m /\
    startsWith m (lit "image/") = true.
Proof.
  rewrite image_outcome. intros E S.
  injection E as <-.
  repeat match type of S with
  | context [match ?x with _ => _ end] => destruct x eqn:?
  end; try discriminate S.
  simpl. do 2 eexists. split; [reflexivity|]. split; [reflexivity|].
  match goal with
  | H : _ || negb (startsWith _ _) = false |- _ =>
      apply orb_false_elim in H; destruct H as [_ H];
      apply negb_false_iff in H; exact H
  end.
Qed.

(** The same on an endpoint that serves a PNG. *)
Lemma image_success_carries_image_witness :
  exists r,
    outcome (ImageGenerationTool.execute pngEndpoint (lit "a cat in a garden")
               None None false) emptyWorld = Normal r /\
    ImageGenerationTool.success r = true /\
    exists b m,
      ImageGenerationTool.imageBase64 r = Some b /\
      ImageGenerationTool.mimeType r = Some m /\
      startsWith m (lit "image/") = true.
Proof.
  eexists. split; [reflexivity|]. split; [reflexivity|].
  apply (image_success_carries_image pngEndpoint (lit "a cat in a garden")
           None None false emptyWorld _ eq_refl eq_refl).
Defined.

(** C7. Once the request is out, a status outside 200-299, a content type
    that does not start with [image/], or the 30-second timer firing
    first (which cancels the request) each end in [success = false] with
    no image data and the specific reason in [error]. *)
Theorem image_failure_reason_is_recorded fetch (p : jsstring)
    (width height : option Z) (lg : bool) (w : world)
    (enc reason : jsstring) :
  isBlank p = false ->
  encodeURIComponent (trim (truncated p)) = Normal enc ->
  synthesisFailure
    (fetch (calls w)
       (ImageGenerationTool.imageUrlTemplate enc
          (clampDimension (withDefault 1024%Z width))
          (clampDimension (withDefault 1024%Z height))))
    reason ->
  exists r,
    outcome (ImageGenerationTool.execute fetch p width height lg) w = Normal r /\
    ImageGenerationTool.success r = false /\
    ImageGenerationTool.imageBase64 r = None /\
    ImageGenerationTool.mimeType r = None /\
    ImageGenerationTool.error r = Some reason.
Proof.
  intros B Enc Fails.
  rewrite image_outcome, B, Enc. cbv zeta.
  inversion Fails as [t resp Ht Hok Hs | t resp Ht Hok Hct Hs
                     | t resp ct Ht Hok Hct Hsw Hs | t c Ht Hs | Hs];
    subst reason; unfold fetchWithAbortTimer.
  - apply N.ltb_lt in Ht. rewrite Ht, Hok. simpl.
    eexists. split; [reflexivity|]. repeat split.
  - apply N.ltb_lt in Ht. rewrite Ht, Hok, Hct. simpl.
    eexists. split; [reflexivity|]. repeat split.
  - apply N.ltb_lt in Ht. rewrite Ht, Hok, Hct, Hsw. simpl.
    rewrite orb_true_r.
    eexists. split; [reflexivity|]. repeat split.
  - apply N.ltb_ge in Ht. rewrite Ht.
    eexists. split; [reflexivity|]. repeat split.
  - eexists. split; [reflexivity|]. repeat split.
Qed.

(** The same on an endpoint that answers 503. *)
Lemma image_failure_reason_is_recorded_witness :
  isBlank (lit "a cat in a garden") = false /\
  exists r,
    outcome (ImageGenerationTool.execute unavailableEndpoint
               (lit "a cat in a garden") None None false) emptyWorld
      = Normal r /\
    ImageGenerationTool.success r = false /\
    ImageGenerationTool.imageBase64 r = None /\
    ImageGenerationTool.mimeType r = None /\
    ImageGenerationTool.error r =
      Some (lit "Pollinations API failed: 503 Service Unavailable").
Proof.
  split; [reflexivity|].
  apply (image_failure_reason_is_recorded unavailableEndpoint
           (lit "a cat in a garden") None None false emptyWorld
           (lit "a%20cat%20in%20a%20garden")
           (lit "Pollinations API failed: 503 Service Unavailable")).
  - reflexivity.
  - reflexivity.
  - apply BadStatus; reflexivity.
Defined.

(** The three failures of the synthesis stage, run on sample endpoints:
    a page instead of an image, an answer that comes after 45 seconds,
    an endpoint that never answers. *)
Example synthesis_rejects_a_page :
  outcome (ImageGenerationTool.execute htmlEndpoint (lit "a cat in a garden")
             (Some 512%Z) (Some 2048%Z) false) emptyWorld =
  Normal (imageFailure (lit "a cat in a garden")
            (newError (lit "Invalid content type received: text/html"))).
Proof. reflexivity. Qed.

Example synthesis_gives_up_on_a_slow_answer :
  outcome (ImageGenerationTool.execute slowEndpoint (lit "a cat in a garden")
             None None false) emptyWorld =
  Normal (imageFailure (lit "a cat in a garden") abortError).
Proof. reflexivity. Qed.

Example synthesis_gives_up_on_a_dead_endpoint :
  outcome (ImageGenerationTool.execute deadEndpoint (lit "a cat in a garden")
             None None false) emptyWorld =
  Normal (imageFailure (lit "a cat in a garden") abortError) /\
  callsAfter (ImageGenerationTool.execute deadEndpoint
                (lit "a cat in a garden") (Some 100%Z) (Some 4000%Z) false)
    emptyWorld =
  [FetchCall
     (lit "https://image.pollinations.ai/prompt/a%20cat%20in%20a%20garden?width=256&height=1024&seed=random")
     (lit "TelegramBot/1.0")].
Proof. split; reflexivity. Qed.

(** C8. For a prompt that passes validation and can be encoded, the one
    request the stage sends is a GET on the URL template filled with the
    encoded prompt and with the width and height it was given, each
    clamped by [Math.min(Math.max(n, 256), 1024)], so both between 256
    and 1024; and the clamping is monotone: a run with a width and a
    height at least as large requests a URL whose two numbers are at
    least as large. *)
Theorem image_request_dimensions_are_clamped fetch (p : jsstring)
    (width height : option Z) (lg : bool) (w : world) (enc : jsstring) :
  isBlank p = false ->
  encodeURIComponent (trim (truncated p)) = Normal enc ->
  exists wd ht,
    callsAfter (ImageGenerationTool.execute fetch p width height lg) w =
      calls w ++
      [FetchCall
         (lit "https://image.pollinations.ai/prompt/" ++ enc ++
          lit "?width=" ++ Number_toString wd ++
          lit "&height=" ++ Number_toString ht ++ lit "&seed=random")
         (lit "TelegramBot/1.0")] /\
    wd = Z.min (Z.max (withDefault 1024%Z width) 256) 1024 /\
    ht = Z.min (Z.max (withDefault 1024%Z height) 256) 1024 /\
    (256 <= wd <= 1024)%Z /\
    (256 <= ht <= 1024)%Z /\
    (forall width' height',
       (withDefault 1024 width <= withDefault 1024 width')%Z ->
       (withDefault 1024 height <= withDefault 1024 height')%Z ->
       exists wd' ht',
         callsAfter (ImageGenerationTool.execute fetch p width' height' lg) w =
           calls w ++
           [FetchCall
              (lit "https://image.pollinations.ai/prompt/" ++ enc ++
               lit "?width=" ++ Number_toString wd' ++
               lit "&height=" ++ Number_toString ht' ++ lit "&seed=random")
              (lit "TelegramBot/1.0")] /\
         (wd <= wd')%Z /\ (ht <= ht')%Z).
Proof.
  intros B Enc.
  exists (clampDimension (withDefault 1024%Z width)),
         (clampDimension (withDefault 1024%Z height)).
  split; [rewrite image_calls, B, Enc; reflexivity|].
  split; [reflexivity|]. split; [reflexivity|].
  split; [apply clampDimension_bounds|].
  split; [apply clampDimension_bounds|].
  intros width' height' Hw Hh.
  exists (clampDimension (withDefault 1024%Z width')),
         (clampDimension (withDefault 1024%Z height')).
  split; [rewrite image_calls, B, Enc; reflexivity|].
  split; apply clampDimension_monotone; assumption.
Qed.

(** The same on a width below and a height above the range. *)
Lemma image_request_dimensions_are_clamped_witness :
  isBlank (lit "a cat in a garden") = false /\
  exists wd ht,
    callsAfter (ImageGenerationTool.execute deadEndpoint
                  (lit "a cat in a garden") (Some 100%Z) (Some 4000%Z) false)
      emptyWorld =
      calls emptyWorld ++
      [FetchCall
         (lit "https://image.pollinations.ai/prompt/" ++
          lit "a%20cat%20in%20a%20garden" ++
          lit "?width=" ++ Number_toString wd ++
          lit "&height=" ++ Number_toString ht ++ lit "&seed=random")
         (lit "TelegramBot/1.0")] /\
    wd = Z.min (Z.max (withDefault 1024%Z (Some 100%Z)) 256) 1024 /\
    ht = Z.min (Z.max (withDefault 1024%Z (Some 4000%Z)) 256) 1024 /\
    (256 <= wd <= 1024)%Z /\
    (256 <= ht <= 1024)%Z /\
    (forall width' height',
       (withDefault 1024 (Some 100%Z) <= withDefault 1024 width')%Z ->
       (withDefault 1024 (Some 4000%Z) <= withDefault 1024 height')%Z ->
       exists wd' ht',
         callsAfter (ImageGenerationTool.execute deadEndpoint
                       (lit "a cat in a garden") width' height' false)
           emptyWorld =
           calls emptyWorld ++
           [FetchCall
              (lit "https://image.pollinations.ai/prompt/" ++
               lit "a%20cat%20in%20a%20garden" ++
               lit "?width=" ++ Number_toString wd' ++
               lit "&height=" ++ Number_toString ht' ++ lit "&seed=random")
              (lit "TelegramBot/1.0")] /\
         (wd <= wd')%Z /\ (ht <= ht')%Z).
Proof.
  split; [reflexivity|].
  apply (image_request_dimensions_are_clamped deadEndpoint
           (lit "a cat in a garden") (Some 100%Z) (Some 4000%Z) false
           emptyWorld (lit "a%20cat%20in%20a%20garden")).
  - reflexivity.
  - reflexivity.
Defined.

(** C9, as the code has it. A prompt of more than 500 code units that
    passes validation (its trimmed form is not empty) is cut to its first
    500, and that text is what the result reports back; when the cut
    text, with leading and trailing white space removed, can be encoded,
    the one request sent embeds that encoding, which is the encoding of
    the 500 code units themselves when the cut text neither starts nor
    ends with white space. *)
Theorem long_prompt_is_cut_then_trimmed fetch (p : jsstring)
    (width height : option Z) (lg : bool) (w : world) :
  500 < length p ->
  isBlank p = false ->
  exists r,
    outcome (ImageGenerationTool.execute fetch p width height lg) w = Normal r /\
    ImageGenerationTool.originalPrompt r = firstn 500 p /\
    length (ImageGenerationTool.originalPrompt r) = 500 /\
    length (trim (firstn 500 p)) <= 500 /\
    (forall enc,
       encodeURIComponent (trim (firstn 500 p)) = Normal enc ->
       callsAfter (ImageGenerationTool.execute fetch p width height lg) w =
         calls w ++
         [FetchCall
            (ImageGenerationTool.imageUrlTemplate enc
               (clampDimension (withDefault 1024%Z width))
               (clampDimension (withDefault 1024%Z height)))
            ImageGenerationTool.userAgent] /\
       (forall c d r' l,
          firstn 500 p = c :: r' -> firstn 500 p = l ++ [d] ->
          isWhiteSpace c = false -> isWhiteSpace d = false ->
          encodeURIComponent (firstn 500 p) = Normal enc)).
Proof.
  intros Long B.
  destruct (truncated_long p Long) as [Cut Len].
  assert (Len' : length (firstn 500 p) = 500) by (rewrite <- Cut; exact Len).
  rewrite image_outcome, image_calls, B, Cut. cbv zeta.
  eexists. split; [reflexivity|].
  split.
  - repeat match goal with
    | |- context [match ?x with _ => _ end] => destruct x
    end; reflexivity.
  - split.
    + repeat match goal with
      | |- context [match ?x with _ => _ end] => destruct x
      end; exact Len'.
    + split.
      * etransitivity; [apply trim_length|].
        rewrite Len'. constructor.
      * intros enc Enc. rewrite Enc. split; [reflexivity|].
        intros c d r' l Hhead Hlast Hc Hd.
        rewrite <- (trim_unchanged (firstn 500 p) c d r' l Hhead Hlast Hc Hd).
        exact Enc.
Qed.

(** The same on a prompt of 501 letters. *)
Lemma long_prompt_is_cut_then_trimmed_witness :
  500 < length (repeat 97%N 501) /\
  isBlank (repeat 97%N 501) = false /\
  exists r,
    outcome (ImageGenerationTool.execute deadEndpoint (repeat 97%N 501)
               None None false) emptyWorld = Normal r /\
    ImageGenerationTool.originalPrompt r = firstn 500 (repeat 97%N 501) /\
    length (ImageGenerationTool.originalPrompt r) = 500 /\
    length (trim (firstn 500 (repeat 97%N 501))) <= 500 /\
    (forall enc,
       encodeURIComponent (trim (firstn 500 (repeat 97%N 501))) = Normal enc ->
       callsAfter (ImageGenerationTool.execute deadEndpoint (repeat 97%N 501)
                     None None false) emptyWorld =
         calls emptyWorld ++
         [FetchCall
            (ImageGenerationTool.imageUrlTemplate enc
               (clampDimension (withDefault 1024%Z None))
               (clampDimension (withDefault 1024%Z None)))
            ImageGenerationTool.userAgent] /\
       (forall c d r' l,
          firstn 500 (repeat 97%N 501) = c :: r' ->
          firstn 500 (repeat 97%N 501) = l ++ [d] ->
          isWhiteSpace c = false -> isWhiteSpace d = false ->
          encodeURIComponent (firstn 500 (repeat 97%N 501)) = Normal enc)).
Proof.
  split; [vm_compute; repeat constructor|].
  split; [vm_compute; reflexivity|].
  apply (long_prompt_is_cut_then_trimmed deadEndpoint (repeat 97%N 501)
           None None false emptyWorld).
  - vm_compute. repeat constructor.
  - vm_compute. reflexivity.
Defined.

(** C9, as stated, fails: a space followed by 500 letters is cut to the
    space and 499 letters, but the URL embeds only the 499 letters, not
    the encoding of the first 500 code units. *)
Lemma long_prompt_with_leading_space_loses_a_character :
  length (32%N :: repeat 97%N 500) = 501 /\
  encodeURIComponent (substring (32%N :: repeat 97%N 500) 0 500) =
    Normal (lit "%20" ++ repeat 97%N 499) /\
  callsAfter (ImageGenerationTool.execute deadEndpoint
                (32%N :: repeat 97%N 500) None None false) emptyWorld =
    [FetchCall (ImageGenerationTool.imageUrlTemplate (repeat 97%N 499)
                  1024 1024)
       ImageGenerationTool.userAgent] /\
  ImageGenerationTool.imageUrlTemplate (repeat 97%N 499) 1024 1024 <>
  ImageGenerationTool.imageUrlTemplate (lit "%20" ++ repeat 97%N 499)
    1024 1024.
Proof.
  split; [vm_compute; reflexivity|].
  split; [vm_compute; reflexivity|].
  split; [vm_compute; reflexivity|].
  intros H. vm_compute in H. discriminate H.
Qed.

(** ** All three stages *)

(** C1. A prompt whose trimmed form is empty makes each of the three
    stages return [success = false] without placing any external call. *)
Theorem blank_prompt_is_rejected_without_external_call
    (generateText : list ext_call -> jsstring -> jsstring -> completion jsstring)
    (fetch : list ext_call -> jsstring -> fetch_outcome)
    (p : jsstring) (style : option jsstring) (width height : option Z)
    (lg : bool) (w : world) :
  trim p = [] ->
  (exists r,
     outcome (PromptEnhancerTool.execute generateText p style lg) w = Normal r /\
     PromptEnhancerTool.success r = false) /\
  callsAfter (PromptEnhancerTool.execute generateText p style lg) w = calls w /\
  (exists r,
     outcome (ImageGenerationTool.execute fetch p width height lg) w = Normal r /\
     ImageGenerationTool.success r = false) /\
  callsAfter (ImageGenerationTool.execute fetch p width height lg) w = calls w /\
  (exists r,
     outcome (AsciiArtFallbackTool.execute generateText p lg) w = Normal r /\
     AsciiArtFallbackTool.success r = false) /\
  callsAfter (AsciiArtFallbackTool.execute generateText p lg) w = calls w.
Proof.
  intros Blank. apply isBlank_true in Blank.
  rewrite enhance_outcome, enhance_calls, image_outcome, image_calls,
    ascii_outcome, ascii_calls, Blank, app_nil_r.
  repeat split; eexists; split; reflexivity.
Qed.

(** The same on a prompt of three spaces. *)
Lemma blank_prompt_is_rejected_without_external_call_witness :
  trim (lit "   ") = [] /\
  (exists r,
     outcome (PromptEnhancerTool.execute silentModel (lit "   ") None true)
       emptyWorld = Normal r /\
     PromptEnhancerTool.success r = false) /\
  callsAfter (PromptEnhancerTool.execute silentModel (lit "   ") None true)
    emptyWorld = calls emptyWorld /\
  (exists r,
     outcome (ImageGenerationTool.execute pngEndpoint (lit "   ") None None true)
       emptyWorld = Normal r /\
     ImageGenerationTool.success r = false) /\
  callsAfter (ImageGenerationTool.execute pngEndpoint (lit "   ") None None true)
    emptyWorld = calls emptyWorld /\
  (exists r,
     outcome (AsciiArtFallbackTool.execute silentModel (lit "   ") true)
       emptyWorld = Normal r /\
     AsciiArtFallbackTool.success r = false) /\
  callsAfter (AsciiArtFallbackTool.execute silentModel (lit "   ") true)
    emptyWorld = calls emptyWorld.
Proof.
  split; [reflexivity|].
  apply (blank_prompt_is_rejected_without_external_call silentModel
           pngEndpoint (lit "   ") None None None true emptyWorld).
  reflexivity.
Defined.


(** C5. Whatever the inputs and whatever the external calls do, no stage
    throws: each returns a result with a non-empty [message], and a
    result with [success = false] carries an [error], while a successful
    one carries none. *)
Theorem stages_return_results_and_never_throw
    (generateText : list ext_call -> jsstring -> jsstring -> completion jsstring)
    (fetch : list ext_call -> jsstring -> fetch_outcome)
    (p : jsstring) (style : option jsstring) (width height : option Z)
    (lg : bool) (w : world) :
  (exists r,
     outcome (PromptEnhancerTool.execute generateText p style lg) w = Normal r /\
     PromptEnhancerTool.message r <> [] /\
     (PromptEnhancerTool.success r = false <->
      exists reason, PromptEnhancerTool.error r = Some reason)) /\
  (exists r,
     outcome (ImageGenerationTool.execute fetch p width height lg) w = Normal r /\
     ImageGenerationTool.message r <> [] /\
     (ImageGenerationTool.success r = false <->
      exists reason, ImageGenerationTool.error r = Some reason)) /\
  (exists r,
     outcome (AsciiArtFallbackTool.execute generateText p lg) w = Normal r /\
     AsciiArtFallbackTool.message r <> [] /\
     (AsciiArtFallbackTool.success r = false <->
      exists reason, AsciiArtFallbackTool.error r = Some reason)).
Proof.
  rewrite enhance_outcome, image_outcome, ascii_outcome. cbv zeta.
  repeat split.
  all: eexists; split; [reflexivity|].
  all: repeat match goal with
       | |- context [match ?x with _ => _ end] => destruct x
       end.
  all: split;
    [ opens_with_literal
    | split;
      [ intros S; first [discriminate S | eexists; reflexivity]
      | intros [reason E]; first [discriminate E | reflexivity] ] ].
Qed.

(** ** The Telegram reply tool *)

(** C10, as the code has it. The reply tool returns [success = true] for
    every input and places no external call; [hasImage] is true exactly
    when [imageData] was supplied and is not the empty string. *)
Theorem telegram_reply_always_reports_success
    (now : list ext_call -> jsstring) (chatId message : jsstring)
    (imageData : option jsstring) (lg : bool) (w : world) :
  exists r,
    outcome (TelegramReplyTool.execute now chatId message imageData lg) w
      = Normal r /\
    TelegramReplyTool.success r = true /\
    TelegramReplyTool.chatId r = chatId /\
    (TelegramReplyTool.hasImage r = true <->
     exists s, imageData = Some s /\ s <> []) /\
    callsAfter (TelegramReplyTool.execute now chatId message imageData lg) w
      = calls w.
Proof.
  assert (Image : TelegramReplyTool.doubleBang imageData = true <->
                  exists s, imageData = Some s /\ s <> []).
  { destruct imageData as [[|c s]|]; simpl; split.
    - discriminate.
    - intros [s' [E NE]]. injection E as <-. exfalso. apply NE. reflexivity.
    - intros _. eexists. split; [reflexivity|discriminate].
    - reflexivity.
    - discriminate.
    - intros [s' [E _]]. discriminate E. }
  run.
  destruct lg; simpl;
    (eexists; split; [reflexivity|]; simpl;
     split; [reflexivity|]; split; [reflexivity|]; split;
     [exact Image|reflexivity]).
Qed.

(** C10, as stated, fails: an empty [imageData] is supplied, yet
    [hasImage] is false. *)
Lemma empty_image_data_is_reported_as_no_image :
  exists r,
    outcome (TelegramReplyTool.execute fixedClock (lit "42") (lit "hello")
               (Some []) false) emptyWorld = Normal r /\
    TelegramReplyTool.success r = true /\
    TelegramReplyTool.hasImage r = false.
Proof.
  eexists. split; [reflexivity|]. split; reflexivity.
Qed.

(** ** The workflow step that parses the envelope *)

(** An envelope that [JSON.parse] rejects ends the step with the parser's
    exception, before the agent is called. *)
Lemma unparsable_envelope_ends_the_step formatNumber agentGenerate
    (input : Workflow.inputData) (lg : bool) (w : world) (e : thrown) :
  Json.parse (Workflow.message input) = Throw e ->
  outcome (Workflow.useAgentStep formatNumber agentGenerate input lg) w
    = Throw e /\
  callsAfter (Workflow.useAgentStep formatNumber agentGenerate input lg) w
    = calls w.
Proof.
  intros Parse.
  unfold outcome, callsAfter, Workflow.useAgentStep, bind, lift, log.
  rewrite Parse. destruct lg; split; reflexivity.
Qed.

(** An envelope whose text is the JSON value [null] ends the step with a
    [TypeError] on the first property read. *)
Lemma null_envelope_ends_the_step formatNumber agentGenerate
    (input : Workflow.inputData) (lg : bool) (w : world) :
  Json.parse (Workflow.message input) = Normal VNull ->
  outcome (Workflow.useAgentStep formatNumber agentGenerate input lg) w
    = Throw (typeError
               (lit "Cannot read properties of null (reading 'message')")) /\
  callsAfter (Workflow.useAgentStep formatNumber agentGenerate input lg) w
    = calls w.
Proof.
  intros Parse.
  unfold outcome, callsAfter, Workflow.useAgentStep, bind, lift, log.
  rewrite Parse. destruct lg; split; reflexivity.
Qed.

(** An envelope that is an object holding an object under [message], with
    nothing under [text] and nothing under [chat], is read as the empty
    prompt. *)
Lemma envelope_without_text_is_the_empty_prompt
    (formatNumber : number -> jsstring) (threadId : jsstring) (w : world) :
  exists out,
    outcome (Workflow.useAgentStep formatNumber echoAgent
               (Workflow.mkInput (lit "{" ++ dq ++ lit "message" ++ dq ++
                                  lit ": {}}") threadId) true) w
      = Normal out /\
    Workflow.messageText out = VString [] /\
    Workflow.chatId out = lit "unknown".
Proof.
  eexists. split; [reflexivity|]. split; reflexivity.
Qed.

(** C6, evaluated on the code. The envelope [{] is not JSON and the
    envelope [null] is JSON without [message.text]; on both the parsing
    step throws instead of reading an empty prompt, the agent is never
    called, and the workflow ends with the same exception. *)
Theorem malformed_envelope_crashes_the_parsing_step formatNumber
    agentGenerate (threadId : jsstring) (lg : bool) (w : world) :
  outcome (Workflow.useAgentStep formatNumber agentGenerate
             (Workflow.mkInput (lit "{") threadId) lg) w
    = Throw Json.syntaxError /\
  outcome (Workflow.useAgentStep formatNumber agentGenerate
             (Workflow.mkInput (lit "null") threadId) lg) w
    = Throw (typeError
               (lit "Cannot read properties of null (reading 'message')")) /\
  callsAfter (Workflow.useAgentStep formatNumber agentGenerate
                (Workflow.mkInput (lit "{") threadId) lg) w = calls w /\
  callsAfter (Workflow.useAgentStep formatNumber agentGenerate
                (Workflow.mkInput (lit "null") threadId) lg) w = calls w /\
  outcome (Workflow.telegramImageBotWorkflow formatNumber agentGenerate
             (Workflow.mkInput (lit "{") threadId) lg) w
    = Throw Json.syntaxError /\
  outcome (Workflow.telegramImageBotWorkflow formatNumber agentGenerate
             (Workflow.mkInput (lit "null") threadId) lg) w
    = Throw (typeError
               (lit "Cannot read properties of null (reading 'message')")).
Proof.
  destruct (unparsable_envelope_ends_the_step formatNumber agentGenerate
              (Workflow.mkInput (lit "{") threadId) lg w Json.syntaxError
              eq_refl) as [Out1 Calls1].
  destruct (null_envelope_ends_the_step formatNumber agentGenerate
              (Workflow.mkInput (lit "null") threadId) lg w eq_refl)
    as [Out2 Calls2].
  repeat split; try assumption.
  - unfold outcome, Workflow.telegramImageBotWorkflow, bind in *.
    destruct (Workflow.useAgentStep formatNumber agentGenerate
                (Workflow.mkInput (lit "{") threadId) lg w) as [c w'].
    simpl in Out1. subst c. reflexivity.
  - unfold outcome, Workflow.telegramImageBotWorkflow, bind in *.
    destruct (Workflow.useAgentStep formatNumber agentGenerate
                (Workflow.mkInput (lit "null") threadId) lg w) as [c w'].
    simpl in Out2. subst c. reflexivity.
Qed.

(** * Further properties of the code *)

(** ** White space *)

Lemma trimStart_keeps (s : jsstring) (c : N) :
  In c s -> isWhiteSpace c = false -> In c (trimStart s).
Proof.
  intros Hin Hc. induction s as [|x r IH]; [destruct Hin|].
  simpl. destruct (isWhiteSpace x) eqn:Ex.
  - destruct Hin as [-> | Hin]; [congruence|]. apply IH. exact Hin.
  - exact Hin.
Qed.

Lemma trim_keeps (s : jsstring) (c : N) :
  In c s -> isWhiteSpace c = false -> In c (trim s).
Proof.
  intros Hin Hc. unfold trim, trimEnd.
  apply in_rev. rewrite rev_involutive.
  apply trimStart_keeps; [|exact Hc].
  apply -> in_rev. apply trimStart_keeps; assumption.
Qed.

Lemma trimStart_head (s r : jsstring) (c : N) :
  trimStart s = c :: r -> isWhiteSpace c = false.
Proof.
  induction s as [|x t IH]; simpl; [discriminate|].
  destruct (isWhiteSpace x) eqn:Ex.
  - exact IH.
  - intros E. injection E as <- _. exact Ex.
Qed.

Lemma trimStart_subset (s : jsstring) (c : N) :
  In c (trimStart s) -> In c s.
Proof.
  induction s as [|x t IH]; simpl; [tauto|].
  destruct (isWhiteSpace x).
  - intros H. right. apply IH. exact H.
  - tauto.
Qed.

Lemma trim_subset (s : jsstring) (c : N) : In c (trim s) -> In c s.
Proof.
  unfold trim, trimEnd. intros H.
  apply in_rev in H. apply trimStart_subset in H.
  apply in_rev in H. apply trimStart_subset in H. exact H.
Qed.

(** A trimmed text that is not empty holds a character that is not white
    space. *)
Lemma trim_nonempty_has_ink (s : jsstring) :
  trim s <> [] -> exists c, In c (trim s) /\ isWhiteSpace c = false.
Proof.
  unfold trim, trimEnd. intros NE.
  destruct (trimStart (rev (trimStart s))) as [|c r] eqn:E.
  - exfalso. apply NE. reflexivity.
  - exists c. split.
    + apply in_rev. rewrite rev_involutive. left. reflexivity.
    + apply (trimStart_head _ _ _ E).
Qed.

Lemma isBlank_has_ink (s : jsstring) (c : N) :
  In c s -> isWhiteSpace c = false -> isBlank s = false.
Proof.
  intros Hin Hc. apply isBlank_false. intros E.
  pose proof (trim_keeps s c Hin Hc) as K. rewrite E in K. destruct K.
Qed.

(** Trimming twice is trimming once, as far as blankness goes. *)
Lemma isBlank_trim (s : jsstring) : isBlank (trim s) = isBlank s.
Proof.
  destruct (isBlank s) eqn:B.
  - apply isBlank_iff in B. rewrite B. reflexivity.
  - assert (NE : trim s <> []).
    { intros E. apply isBlank_true in E. congruence. }
    destruct (trim_nonempty_has_ink s NE) as [c [Hin Hc]].
    apply (isBlank_has_ink _ c Hin Hc).
Qed.

(** ** More on the prompt enhancer *)

(** X1. The enhancer reports success exactly when the prompt is not blank
    and the model answers; in every outcome the result hands back the
    prompt it was given and the style, [realistic] when none was
    given. *)
Theorem enhance_succeeds_exactly_when_the_model_answers gt (p : jsstring)
    (style : option jsstring) (lg : bool) (w : world) :
  exists r,
    outcome (PromptEnhancerTool.execute gt p style lg) w = Normal r /\
    (PromptEnhancerTool.success r = true <->
     isBlank p = false /\
     exists text,
       gt (calls w) PromptEnhancerTool.model
          (PromptEnhancerTool.instruction p
             (withDefault (lit "realistic") style)) = Normal text) /\
    PromptEnhancerTool.originalPrompt r = p /\
    PromptEnhancerTool.style r = withDefault (lit "realistic") style.
Proof.
  rewrite enhance_outcome. cbv zeta.
  eexists. split; [reflexivity|].
  destruct (isBlank p).
  - simpl. split; [|split; reflexivity].
    split; [discriminate|]. intros [B _]. discriminate B.
  - destruct (gt (calls w) PromptEnhancerTool.model
                (PromptEnhancerTool.instruction p
                   (withDefault (lit "realistic") style))) as [text|e];
      simpl; (split; [|split; reflexivity]).
    + split; [|reflexivity]. intros _. split; [reflexivity|].
      exists text. reflexivity.
    + split; [discriminate|]. intros [_ [text E]]. discriminate E.
Qed.

(** X2. The prompt a failed enhancement falls back to always passes the
    blank-prompt test of the next stage, whatever the prompt and style;
    a successful enhancement hands on a blank prompt exactly when the
    model's answer was blank. *)
Theorem enhanced_prompt_is_blank_only_for_a_blank_answer gt (p : jsstring)
    (style : option jsstring) (lg : bool) (w : world) :
  exists r,
    outcome (PromptEnhancerTool.execute gt p style lg) w = Normal r /\
    (PromptEnhancerTool.success r = false ->
     isBlank (PromptEnhancerTool.enhancedPrompt r) = false) /\
    (forall text,
       isBlank p = false ->
       gt (calls w) PromptEnhancerTool.model
          (PromptEnhancerTool.instruction p
             (withDefault (lit "realistic") style)) = Normal text ->
       isBlank (PromptEnhancerTool.enhancedPrompt r) = isBlank text).
Proof.
  assert (Ink : forall st, isBlank (fallbackTemplate p st) = false).
  { intros st. apply (isBlank_has_ink _ 44%N); [|reflexivity].
    unfold fallbackTemplate. apply in_or_app. right.
    apply in_or_app. left. left. reflexivity. }
  rewrite enhance_outcome. cbv zeta.
  eexists. split; [reflexivity|].
  destruct (isBlank p).
  - simpl. split; [intros _; apply Ink|]. intros text B. discriminate B.
  - destruct (gt (calls w) PromptEnhancerTool.model
                (PromptEnhancerTool.instruction p
                   (withDefault (lit "realistic") style))) as [text|e];
      simpl.
    + split; [discriminate|].
      intros text' _ E. injection E as <-. apply isBlank_trim.
    + split; [intros _; apply Ink|]. intros text' _ E. discriminate E.
Qed.

(** ** Calls and logging *)

(** X3. No stage retries: the enhancer and the synthesis stage place at
    most one call and the ASCII-art stage at most two, after the calls
    already on record, which stay as they were; the text stages call
    only the model [gemini-1.5-flash] and the synthesis stage only sends
    a GET as [TelegramBot/1.0]. *)
Theorem stages_place_a_bounded_number_of_calls
    (generateText : list ext_call -> jsstring -> jsstring -> completion jsstring)
    (fetch : list ext_call -> jsstring -> fetch_outcome)
    (p : jsstring) (style : option jsstring) (width height : option Z)
    (lg : bool) (w : world) :
  (exists new,
     callsAfter (PromptEnhancerTool.execute generateText p style lg) w
       = calls w ++ new /\
     length new <= 1 /\
     forall c, In c new ->
       exists text, c = GenerateTextCall (lit "gemini-1.5-flash") text) /\
  (exists new,
     callsAfter (ImageGenerationTool.execute fetch p width height lg) w
       = calls w ++ new /\
     length new <= 1 /\
     forall c, In c new ->
       exists url, c = FetchCall url (lit "TelegramBot/1.0")) /\
  (exists new,
     callsAfter (AsciiArtFallbackTool.execute generateText p lg) w
       = calls w ++ new /\
     length new <= 2 /\
     forall c, In c new ->
       exists text, c = GenerateTextCall (lit "gemini-1.5-flash") text).
Proof.
  rewrite enhance_calls, image_calls, ascii_calls.
  split; [|split]; eexists; (split; [reflexivity|]).
  - destruct (isBlank p); simpl; (split; [lia|]);
      intros c Hin; repeat destruct Hin as [<- | Hin]; try contradiction;
      eexists; reflexivity.
  - destruct (isBlank p); [|destruct (encodeURIComponent (trim (truncated p)))];
      simpl; (split; [lia|]);
      intros c Hin; repeat destruct Hin as [<- | Hin]; try contradiction;
      eexists; reflexivity.
  - destruct (isBlank p);
      [|destruct (generateText (calls w) AsciiArtFallbackTool.model
                    (AsciiArtFallbackTool.artInstruction p))];
      simpl; (split; [lia|]);
      intros c Hin; repeat destruct Hin as [<- | Hin]; try contradiction;
      eexists; reflexivity.
Qed.

(** X4. Logging never changes a result: with or without a logger, and
    whatever lines are already in the log, a tool started on the same
    call history returns the same completion and places the same
    calls. *)
Theorem tools_do_not_depend_on_the_logger
    (generateText : list ext_call -> jsstring -> jsstring -> completion jsstring)
    (fetch : list ext_call -> jsstring -> fetch_outcome)
    (now : list ext_call -> jsstring)
    (p chatId : jsstring) (style imageData : option jsstring)
    (width height : option Z) (lg lg' : bool) (w w' : world) :
  calls w = calls w' ->
  (outcome (PromptEnhancerTool.execute generateText p style lg) w =
   outcome (PromptEnhancerTool.execute generateText p style lg') w' /\
   callsAfter (PromptEnhancerTool.execute generateText p style lg) w =
   callsAfter (PromptEnhancerTool.execute generateText p style lg') w') /\
  (outcome (ImageGenerationTool.execute fetch p width height lg) w =
   outcome (ImageGenerationTool.execute fetch p width height lg') w' /\
   callsAfter (ImageGenerationTool.execute fetch p width height lg) w =
   callsAfter (ImageGenerationTool.execute fetch p width height lg') w') /\
  (outcome (AsciiArtFallbackTool.execute generateText p lg) w =
   outcome (AsciiArtFallbackTool.execute generateText p lg') w' /\
   callsAfter (AsciiArtFallbackTool.execute generateText p lg) w =
   callsAfter (AsciiArtFallbackTool.execute generateText p lg') w') /\
  (outcome (TelegramReplyTool.execute now chatId p imageData lg) w =
   outcome (TelegramReplyTool.execute now chatId p imageData lg') w' /\
   callsAfter (TelegramReplyTool.execute now chatId p imageData lg) w =
   callsAfter (TelegramReplyTool.execute now chatId p imageData lg') w').
Proof.
  intros Same.
  rewrite !enhance_outcome, !enhance_calls, !image_outcome, !image_calls,
    !ascii_outcome, !ascii_calls, Same.
  repeat split.
  - run. destruct lg, lg'; simpl; rewrite Same; reflexivity.
  - run. destruct lg, lg'; simpl; rewrite ?Same; reflexivity.
Qed.

(** The same, between a silent run in an empty world and a logged run in
    a world whose log already has a line. *)
Lemma tools_do_not_depend_on_the_logger_witness :
  outcome (PromptEnhancerTool.execute chattyModel (lit "a cat") None false)
    emptyWorld =
  outcome (PromptEnhancerTool.execute chattyModel (lit "a cat") None true)
    (mkWorld [] [(Info, "earlier line"%string)]).
Proof.
  apply (tools_do_not_depend_on_the_logger chattyModel pngEndpoint
           fixedClock (lit "a cat") (lit "42") None None None None
           false true emptyWorld (mkWorld [] [(Info, "earlier line"%string)])).
  reflexivity.
Defined.

(** ** More on the image synthesis stage *)

Lemma truncated_short (p : jsstring) : length p <= 500 -> truncated p = p.
Proof.
  intros L. unfold truncated.
  rewrite (proj2 (Nat.ltb_ge 500 (length p)) L). reflexivity.
Qed.

Lemma truncated_length (p : jsstring) : length (truncated p) <= 500.
Proof.
  destruct (Nat.le_gt_cases (length p) 500) as [L|L].
  - rewrite truncated_short; assumption.
  - destruct (truncated_long p L) as [_ ->]. constructor.
Qed.

(** X5. The prompt the synthesis result reports back: a blank prompt comes
    back untouched, however long it is; any other prompt comes back cut
    to its first 500 code units, so unchanged when it has at most 500. *)
Theorem image_result_reports_the_cut_prompt fetch (p : jsstring)
    (width height : option Z) (lg : bool) (w : world) :
  exists r,
    outcome (ImageGenerationTool.execute fetch p width height lg) w = Normal r /\
    (isBlank p = true -> ImageGenerationTool.originalPrompt r = p) /\
    (isBlank p = false ->
     ImageGenerationTool.originalPrompt r = firstn 500 p /\
     length (ImageGenerationTool.originalPrompt r) <= 500) /\
    (length p <= 500 -> ImageGenerationTool.originalPrompt r = p).
Proof.
  assert (Cut : truncated p = firstn 500 p).
  { destruct (Nat.le_gt_cases (length p) 500) as [L|L].
    - rewrite truncated_short by assumption.
      symmetry. apply firstn_all2. assumption.
    - apply truncated_long. assumption. }
  assert (Short : length p <= 500 -> truncated p = p)
    by apply truncated_short.
  pose proof (truncated_length p) as Len.
  rewrite image_outcome. cbv zeta.
  eexists. split; [reflexivity|].
  destruct (isBlank p).
  - simpl. split; [reflexivity|]. split; [discriminate|reflexivity].
  - assert (Prompt :
      forall r,
        ImageGenerationTool.originalPrompt r = truncated p ->
        (false = true -> ImageGenerationTool.originalPrompt r = p) /\
        (false = false ->
         ImageGenerationTool.originalPrompt r = firstn 500 p /\
         length (ImageGenerationTool.originalPrompt r) <= 500) /\
        (length p <= 500 -> ImageGenerationTool.originalPrompt r = p)).
    { intros r ->. split; [discriminate|]. split.
      - intros _. split; [exact Cut|exact Len].
      - exact Short. }
    apply Prompt.
    repeat match goal with
    | |- context [match ?x with _ => _ end] => destruct x
    end; reflexivity.
Qed.

(** X6. The synthesis stage reports success exactly when the prompt is not
    blank, its cut and trimmed form can be encoded, the endpoint answers
    within the 30 seconds with a status in 200-299 and a content type
    starting with [image/], and the body can be read; the result then
    carries the base64 text of that body, that content type and the URL
    that was requested, and no error. *)
Theorem image_succeeds_exactly_on_a_timely_image_response fetch
    (p : jsstring) (width height : option Z) (lg : bool) (w : world) :
  let url enc :=
    ImageGenerationTool.imageUrlTemplate enc
      (clampDimension (withDefault 1024%Z width))
      (clampDimension (withDefault 1024%Z height)) in
  let served enc t resp ct bytes :=
    isBlank p = false /\
    encodeURIComponent (trim (truncated p)) = Normal enc /\
    fetch (calls w) (url enc) = Settles t (Normal resp) /\
    (t < 30000)%N /\
    ok resp = true /\
    contentTypeHeader resp = Some ct /\
    startsWith ct (lit "image/") = true /\
    arrayBuffer resp = Normal bytes in
  exists r,
    outcome (ImageGenerationTool.execute fetch p width height lg) w = Normal r /\
    (ImageGenerationTool.success r = true <->
     exists enc t resp ct bytes, served enc t resp ct bytes) /\
    (forall enc t resp ct bytes,
       served enc t resp ct bytes ->
       ImageGenerationTool.imageBase64 r = Some (base64 bytes) /\
       ImageGenerationTool.mimeType r = Some ct /\
       ImageGenerationTool.imageUrl r = Some (url enc) /\
       ImageGenerationTool.error r = None).
Proof.
  intros url served. subst url served. cbv beta.
  rewrite image_outcome. cbv zeta.
  eexists. split; [reflexivity|].
  split.
  - split.
    + intros S.
      destruct (isBlank p); [discriminate S|].
      destruct (encodeURIComponent (trim (truncated p))) as [enc|e];
        [|discriminate S].
      unfold fetchWithAbortTimer in S.
      match type of S with
      | context [fetch ?h ?u] => destruct (fetch h u) as [t c|] eqn:F
      end; simpl in S; [|discriminate S].
      destruct (N.ltb t 30000) eqn:T; simpl in S; [|discriminate S].
      destruct c as [resp|e]; simpl in S; [|discriminate S].
      destruct (ok resp) eqn:Ok; simpl in S; [|discriminate S].
      destruct (contentTypeHeader resp) as [ct|] eqn:Ct;
        simpl in S; [|discriminate S].
      destruct (negb (truthy ct) || negb (startsWith ct (lit "image/")))
        eqn:Bad; simpl in S; [discriminate S|].
      destruct (arrayBuffer resp) as [bytes|e] eqn:Body;
        simpl in S; [|discriminate S].
      exists enc, t, resp, ct, bytes.
      apply orb_false_elim in Bad. destruct Bad as [_ Bad].
      apply negb_false_iff in Bad.
      apply N.ltb_lt in T.
      repeat split; assumption.
    + intros [enc [t [resp [ct [bytes
        [B [Enc [F [T [Ok [Ct [Sw Body]]]]]]]]]]]].
      apply N.ltb_lt in T.
      rewrite B, Enc, F. unfold fetchWithAbortTimer.
      rewrite T, Ok, Ct, Sw, Body.
      destruct ct; [discriminate Sw|]. reflexivity.
  - intros enc t resp ct bytes [B [Enc [F [T [Ok [Ct [Sw Body]]]]]]].
    apply N.ltb_lt in T.
    rewrite B, Enc, F. unfold fetchWithAbortTimer.
    rewrite T, Ok, Ct, Sw, Body.
    destruct ct; [discriminate Sw|]. repeat split.
Qed.

(** X7. A prompt whose cut and trimmed form cannot be encoded, because a
    surrogate is left without its partner, ends in [success = false]
    with the encoder's error, and no request is sent. *)
Theorem unencodable_prompt_sends_no_request fetch (p : jsstring)
    (width height : option Z) (lg : bool) (w : world) (e : thrown) :
  isBlank p = false ->
  encodeURIComponent (trim (truncated p)) = Throw e ->
  exists r,
    outcome (ImageGenerationTool.execute fetch p width height lg) w = Normal r /\
    ImageGenerationTool.success r = false /\
    ImageGenerationTool.error r = Some (messageOrString e) /\
    callsAfter (ImageGenerationTool.execute fetch p width height lg) w = calls w.
Proof.
  intros B Enc.
  rewrite image_outcome, image_calls, B, Enc, app_nil_r.
  eexists. split; [reflexivity|]. repeat split.
Qed.

(** The same on 499 letters followed by a character outside the basic
    plane: the cut at 500 code units splits its surrogate pair. *)
Lemma unencodable_prompt_sends_no_request_witness :
  length (repeat 97%N 499 ++ [0xD83C; 0xDFA8]%N) = 501 /\
  encodeURIComponent (repeat 97%N 499 ++ [0xD83C; 0xDFA8]%N) =
    Normal (repeat 97%N 499 ++ lit "%F0%9F%8E%A8") /\
  exists r,
    outcome (ImageGenerationTool.execute pngEndpoint
               (repeat 97%N 499 ++ [0xD83C; 0xDFA8]%N) None None false)
      emptyWorld = Normal r /\
    ImageGenerationTool.success r = false /\
    ImageGenerationTool.error r = Some (lit "URI malformed") /\
    callsAfter (ImageGenerationTool.execute pngEndpoint
                  (repeat 97%N 499 ++ [0xD83C; 0xDFA8]%N) None None false)
      emptyWorld = calls emptyWorld.
Proof.
  split; [vm_compute; reflexivity|].
  split; [vm_compute; reflexivity|].
  apply (unencodable_prompt_sends_no_request pngEndpoint
           (repeat 97%N 499 ++ [0xD83C; 0xDFA8]%N) None None false
           emptyWorld uriError).
  - vm_compute. reflexivity.
  - vm_compute. reflexivity.
Defined.

(** X8. The blank-prompt test runs before the cut: a prompt that is not
    blank but whose first 500 code units are all white space passes the
    test and is then requested as an empty prompt. *)
Theorem late_text_is_requested_as_an_empty_prompt fetch (p : jsstring)
    (width height : option Z) (lg : bool) (w : world) :
  500 < length p ->
  isBlank p = false ->
  trim (firstn 500 p) = [] ->
  callsAfter (ImageGenerationTool.execute fetch p width height lg) w =
  calls w ++
  [FetchCall
     (lit "https://image.pollinations.ai/prompt/" ++
      lit "?width=" ++
      Number_toString (clampDimension (withDefault 1024%Z width)) ++
      lit "&height=" ++
      Number_toString (clampDimension (withDefault 1024%Z height)) ++
      lit "&seed=random")
     (lit "TelegramBot/1.0")].
Proof.
  intros Long B Empty.
  destruct (truncated_long p Long) as [Cut _].
  rewrite image_calls, B, Cut, Empty. reflexivity.
Qed.

(** The same on 500 spaces followed by a letter. *)
Lemma late_text_is_requested_as_an_empty_prompt_witness :
  500 < length (repeat 32%N 500 ++ [97%N]) /\
  callsAfter (ImageGenerationTool.execute deadEndpoint
                (repeat 32%N 500 ++ [97%N]) None None false) emptyWorld =
  calls emptyWorld ++
  [FetchCall
     (lit "https://image.pollinations.ai/prompt/" ++
      lit "?width=" ++
      Number_toString (clampDimension (withDefault 1024%Z None)) ++
      lit "&height=" ++
      Number_toString (clampDimension (withDefault 1024%Z None)) ++
      lit "&seed=random")
     (lit "TelegramBot/1.0")].
Proof.
  split.
  - vm_compute. repeat constructor.
  - apply (late_text_is_requested_as_an_empty_prompt deadEndpoint
             (repeat 32%N 500 ++ [97%N]) None None false emptyWorld).
    + vm_compute. repeat constructor.
    + vm_compute. reflexivity.
    + vm_compute. reflexivity.
Defined.

(** *** The request URL *)

Ltac div_lia := zify; Z.to_euclidean_division_equations; lia.

Lemma urlSafeb_sound (c : N) : urlSafeb c = true -> urlSafe c.
Proof.
  unfold urlSafeb, urlSafe. intros H.
  apply andb_true_iff in H. destruct H as [L W].
  split; [apply N.ltb_lt; exact L|].
  apply negb_true_iff. exact W.
Qed.

(** A test that holds on each of the 128 ASCII codes holds on every code
    below 128. *)
Lemma checked_below_128 (f : N -> bool) :
  forallb f (map N.of_nat (seq 0 128)) = true ->
  forall c, (c < 128)%N -> f c = true.
Proof.
  intros All c L.
  rewrite forallb_forall in All. apply All.
  rewrite <- (N2Nat.id c). apply in_map. apply in_seq. lia.
Qed.

Lemma unreserved_is_urlSafe (c : N) : uriUnreserved c = true -> urlSafe c.
Proof.
  intros U. apply urlSafeb_sound.
  assert (L : (c < 128)%N).
  { unfold uriUnreserved in U.
    repeat match type of U with
    | (_ || _) = true => apply orb_true_iff in U; destruct U as [U | U]
    end;
    try (apply andb_true_iff in U; destruct U as [_ U];
         apply N.leb_le in U; lia);
    apply N.eqb_eq in U; lia. }
  pose proof (checked_below_128
                (fun c => implb (uriUnreserved c) (urlSafeb c))
                eq_refl c L) as Chk.
  simpl in Chk. rewrite U in Chk. exact Chk.
Qed.

Lemma hexDigit_is_unreserved (n : N) :
  (n < 16)%N -> uriUnreserved (hexDigit n) = true.
Proof.
  intros L.
  assert (L' : (n < 128)%N) by lia.
  pose proof (checked_below_128
                (fun n => implb (N.ltb n 16) (uriUnreserved (hexDigit n)))
                eq_refl n L') as Chk.
  simpl in Chk. rewrite (proj2 (N.ltb_lt n 16) L) in Chk. exact Chk.
Qed.

Lemma percentOctet_is_escaped (b : N) :
  (b < 256)%N -> Forall uriEscaped (percentOctet b).
Proof.
  intros L. unfold percentOctet.
  constructor; [right; reflexivity|].
  constructor; [left; apply hexDigit_is_unreserved; div_lia|].
  constructor; [left; apply hexDigit_is_unreserved; div_lia|].
  constructor.
Qed.

Lemma utf8_octets (cp : N) :
  (cp < 0x110000)%N -> Forall (fun b => (b < 256)%N) (utf8 cp).
Proof.
  intros L. unfold utf8.
  destruct (N.ltb cp 128) eqn:A; [apply N.ltb_lt in A; repeat constructor; lia|].
  destruct (N.ltb cp 2048) eqn:B;
    [apply N.ltb_lt in B; repeat constructor; div_lia|].
  destruct (N.ltb cp 65536) eqn:C;
    [apply N.ltb_lt in C; repeat constructor; div_lia|].
  repeat constructor; div_lia.
Qed.

Lemma escape_is_escaped (cp : N) :
  (cp < 0x110000)%N -> Forall uriEscaped (flat_map percentOctet (utf8 cp)).
Proof.
  intros L. apply Forall_flat_map.
  eapply Forall_impl; [|apply utf8_octets; exact L].
  intros b. apply percentOctet_is_escaped.
Qed.

(** Whatever [encodeURIComponent] returns for a well-formed text is made
    of unreserved characters and percent signs only. *)
Lemma encodeURIComponent_is_escaped (s r : jsstring) :
  wellFormed s -> encodeURIComponent s = Normal r -> Forall uriEscaped r.
Proof.
  assert (Bounded : forall n s r, length s <= n -> wellFormed s ->
            encodeURIComponent s = Normal r -> Forall uriEscaped r).
  { clear s r. induction n as [|n IH]; intros s r Len WF Enc.
    - destruct s; [|simpl in Len; lia].
      simpl in Enc. injection Enc as <-. constructor.
    - destruct s as [|c rest]; [simpl in Enc; injection Enc as <-; constructor|].
      simpl in Len.
      inversion WF as [|? ? Hc WFrest]; subst.
      simpl in Enc.
      destruct (uriUnreserved c) eqn:U.
      + destruct (encodeURIComponent rest) as [r'|e] eqn:E; [|discriminate].
        injection Enc as <-. constructor.
        * left. exact U.
        * apply (IH rest r'); [lia|exact WFrest|exact E].
      + destruct (isLowSurrogate c) eqn:Lo; [discriminate|].
        destruct (isHighSurrogate c) eqn:Hi.
        * destruct rest as [|c2 rest2]; [discriminate|].
          destruct (isLowSurrogate c2) eqn:Lo2; [|discriminate].
          destruct (encodeURIComponent rest2) as [r'|e] eqn:E; [|discriminate].
          injection Enc as <-.
          inversion WFrest as [|? ? Hc2 WFrest2]; subst.
          apply Forall_app. split.
          -- apply escape_is_escaped.
             unfold isHighSurrogate in Hi. unfold isLowSurrogate in Lo2.
             apply andb_true_iff in Hi. destruct Hi as [H1 H2].
             apply andb_true_iff in Lo2. destruct Lo2 as [L1 L2].
             apply N.leb_le in H1, H2, L1, L2. lia.
          -- apply (IH rest2 r'); [simpl in Len; lia|exact WFrest2|exact E].
        * destruct (encodeURIComponent rest) as [r'|e] eqn:E; [|discriminate].
          injection Enc as <-.
          apply Forall_app. split.
          -- apply escape_is_escaped. lia.
          -- apply (IH rest r'); [lia|exact WFrest|exact E]. }
  apply (Bounded (length s)). constructor.
Qed.

Lemma escaped_is_urlSafe (c : N) : uriEscaped c -> urlSafe c.
Proof.
  intros [U | ->]; [apply unreserved_is_urlSafe; exact U|split; reflexivity].
Qed.

(** None of the characters that delimit the parts of a URL, and no space,
    can come out of [encodeURIComponent]. *)
Lemma escaped_is_no_delimiter (c : N) :
  uriEscaped c ->
  c <> 63%N /\ c <> 38%N /\ c <> 61%N /\ c <> 35%N /\ c <> 47%N /\ c <> 32%N.
Proof.
  intros [U | ->]; [|repeat split; discriminate].
  repeat split; intros ->; discriminate U.
Qed.

Lemma uint_digits_are_urlSafe (u : Decimal.uint) : Forall urlSafe (uint_digits u).
Proof.
  induction u; simpl; constructor; try assumption; split; reflexivity.
Qed.

Lemma Number_toString_is_urlSafe (z : Z) : Forall urlSafe (Number_toString z).
Proof.
  destruct z; simpl.
  - repeat constructor.
  - apply uint_digits_are_urlSafe.
  - constructor; [split; reflexivity|]. apply uint_digits_are_urlSafe.
Qed.

Lemma literal_is_urlSafe (l : jsstring) :
  forallb urlSafeb l = true -> Forall urlSafe l.
Proof.
  intros H. apply Forall_forall. intros c Hin.
  apply urlSafeb_sound. rewrite forallb_forall in H. apply H. exact Hin.
Qed.

Lemma wellFormed_firstn (n : nat) (s : jsstring) :
  wellFormed s -> wellFormed (firstn n s).
Proof.
  unfold wellFormed. revert s.
  induction n as [|n IH]; intros s WF; simpl; [constructor|].
  destruct s; [constructor|].
  inversion WF; subst. constructor; [assumption|]. apply IH. assumption.
Qed.

Lemma wellFormed_trim (s : jsstring) : wellFormed s -> wellFormed (trim s).
Proof.
  unfold wellFormed. rewrite !Forall_forall.
  intros WF c Hin. apply WF. apply trim_subset. exact Hin.
Qed.

Lemma wellFormed_truncated (s : jsstring) :
  wellFormed s -> wellFormed (truncated s).
Proof.
  intros WF. unfold truncated.
  destruct (Nat.ltb 500 (length s)); [|exact WF].
  rewrite substring_prefix. apply wellFormed_firstn. exact WF.
Qed.

(** X9. For a prompt that passes validation and can be encoded, the one
    URL requested is the template around the encoding of the cut and
    trimmed prompt, and that encoding holds only the characters
    [encodeURIComponent] leaves alone (letters, digits and
    [- _ . ! ~ * ' ( )]) and percent signs: no [?], [&], [=], [#], [/]
    or space of the prompt reaches the URL, which as a whole is ASCII
    without white space. *)
Theorem requested_url_escapes_the_prompt fetch (p : jsstring)
    (width height : option Z) (lg : bool) (w : world) (enc : jsstring) :
  wellFormed p ->
  isBlank p = false ->
  encodeURIComponent (trim (truncated p)) = Normal enc ->
  callsAfter (ImageGenerationTool.execute fetch p width height lg) w =
    calls w ++
    [FetchCall
       (lit "https://image.pollinations.ai/prompt/" ++ enc ++
        lit "?width=" ++
        Number_toString (Z.min (Z.max (withDefault 1024%Z width) 256) 1024) ++
        lit "&height=" ++
        Number_toString (Z.min (Z.max (withDefault 1024%Z height) 256) 1024) ++
        lit "&seed=random")
       (lit "TelegramBot/1.0")] /\
  Forall uriEscaped enc /\
  (forall c, In c enc ->
     c <> 63%N /\ c <> 38%N /\ c <> 61%N /\ c <> 35%N /\ c <> 47%N /\
     c <> 32%N) /\
  Forall urlSafe
    (lit "https://image.pollinations.ai/prompt/" ++ enc ++
     lit "?width=" ++
     Number_toString (Z.min (Z.max (withDefault 1024%Z width) 256) 1024) ++
     lit "&height=" ++
     Number_toString (Z.min (Z.max (withDefault 1024%Z height) 256) 1024) ++
     lit "&seed=random").
Proof.
  intros WF B Enc.
  assert (Esc : Forall uriEscaped enc).
  { apply (encodeURIComponent_is_escaped (trim (truncated p))); [|exact Enc].
    apply wellFormed_trim, wellFormed_truncated. exact WF. }
  split; [rewrite image_calls, B, Enc; reflexivity|].
  split; [exact Esc|].
  split.
  - intros c Hin. apply escaped_is_no_delimiter.
    rewrite Forall_forall in Esc. apply Esc. exact Hin.
  - repeat (apply Forall_app; split);
      try apply Number_toString_is_urlSafe;
      try (apply literal_is_urlSafe; reflexivity).
    eapply Forall_impl; [|exact Esc]. exact escaped_is_urlSafe.
Qed.

(** The same on a prompt with a space, an accented letter and a character
    outside the basic plane. *)
Lemma requested_url_escapes_the_prompt_witness :
  wellFormed accentedPrompt /\
  isBlank accentedPrompt = false /\
  encodeURIComponent (trim (truncated accentedPrompt)) =
    Normal (lit "a%20caf%C3%A9%20%F0%9F%8E%A8") /\
  callsAfter (ImageGenerationTool.execute deadEndpoint accentedPrompt
                (Some 300%Z) None false) emptyWorld =
    calls emptyWorld ++
    [FetchCall
       (lit "https://image.pollinations.ai/prompt/" ++
        lit "a%20caf%C3%A9%20%F0%9F%8E%A8" ++
        lit "?width=" ++
        Number_toString
          (Z.min (Z.max (withDefault 1024%Z (Some 300%Z)) 256) 1024) ++
        lit "&height=" ++
        Number_toString (Z.min (Z.max (withDefault 1024%Z None) 256) 1024) ++
        lit "&seed=random")
       (lit "TelegramBot/1.0")] /\
  Forall uriEscaped (lit "a%20caf%C3%A9%20%F0%9F%8E%A8").
Proof.
  assert (WF : wellFormed accentedPrompt).
  { unfold wellFormed, accentedPrompt. repeat constructor. }
  split; [exact WF|].
  split; [reflexivity|].
  split; [reflexivity|].
  destruct (requested_url_escapes_the_prompt deadEndpoint accentedPrompt
              (Some 300%Z) None false emptyWorld
              (lit "a%20caf%C3%A9%20%F0%9F%8E%A8") WF eq_refl eq_refl)
    as [Calls [Esc _]].
  split; [exact Calls|exact Esc].
Defined.

Example accented_prompt_url :
  callsAfter (ImageGenerationTool.execute deadEndpoint accentedPrompt
                (Some 300%Z) None false) emptyWorld =
  [FetchCall
     (lit "https://image.pollinations.ai/prompt/a%20caf%C3%A9%20%F0%9F%8E%A8?width=300&height=1024&seed=random")
     (lit "TelegramBot/1.0")].
Proof. reflexivity. Qed.

(** *** The encoded image *)

Lemma inBase64Alphabet_ranges (c : N) :
  (65 <= c <= 90 \/ 97 <= c <= 122 \/ 48 <= c <= 57 \/
   c = 43 \/ c = 47 \/ c = 61)%N ->
  inBase64Alphabet c = true.
Proof.
  unfold inBase64Alphabet.
  rewrite !orb_true_iff, !andb_true_iff, !N.leb_le, !N.eqb_eq. lia.
Qed.

Lemma base64Char_in_alphabet (i : N) : inBase64Alphabet (base64Char i) = true.
Proof.
  apply inBase64Alphabet_ranges. unfold base64Char.
  destruct (N.ltb i 26) eqn:A; [apply N.ltb_lt in A; lia|].
  apply N.ltb_ge in A.
  destruct (N.ltb i 52) eqn:B; [apply N.ltb_lt in B; lia|].
  apply N.ltb_ge in B.
  destruct (N.ltb i 62) eqn:C; [apply N.ltb_lt in C; lia|].
  destruct (N.eqb i 62); lia.
Qed.

(** The base64 text of [n] octets has [4 * ceil(n / 3)] characters, all
    of them from the alphabet. *)
Lemma base64_shape (bytes : list N) :
  length (base64 bytes) = 4 * ((length bytes + 2) / 3) /\
  forallb inBase64Alphabet (base64 bytes) = true.
Proof.
  assert (Bounded : forall n bytes, length bytes <= n ->
            length (base64 bytes) = 4 * ((length bytes + 2) / 3) /\
            forallb inBase64Alphabet (base64 bytes) = true).
  { clear bytes. induction n as [|n IH]; intros bytes Len.
    - destruct bytes; [split; reflexivity|simpl in Len; lia].
    - destruct bytes as [|a [|b [|c rest]]].
      + split; reflexivity.
      + split; [reflexivity|].
        simpl. rewrite !base64Char_in_alphabet. reflexivity.
      + split; [reflexivity|].
        simpl. rewrite !base64Char_in_alphabet. reflexivity.
      + destruct (IH rest) as [L A]; [simpl in Len; lia|].
        split.
        * change (base64 (a :: b :: c :: rest))
            with ([base64Char (a / 4); base64Char ((a mod 4) * 16 + b / 16);
                   base64Char ((b mod 16) * 4 + c / 64);
                   base64Char (c mod 64)]%N ++ base64 rest).
          rewrite length_app, L. simpl length.
          replace (S (S (S (length rest))) + 2)
            with (length rest + 2 + 1 * 3) by lia.
          rewrite Nat.div_add by lia. lia.
        * change (base64 (a :: b :: c :: rest))
            with ([base64Char (a / 4); base64Char ((a mod 4) * 16 + b / 16);
                   base64Char ((b mod 16) * 4 + c / 64);
                   base64Char (c mod 64)]%N ++ base64 rest).
          rewrite forallb_app, A. simpl.
          rewrite !base64Char_in_alphabet. reflexivity. }
  apply (Bounded (length bytes)). constructor.
Qed.

(** X10. When the endpoint answers in time with a good status, an image
    content type and a body of [n] octets, the [imageBase64] of the
    result is the padded base64 text of that very body: four characters
    for every three octets, rounded up, all from the base64 alphabet. *)
Theorem image_is_returned_as_padded_base64 fetch (p : jsstring)
    (width height : option Z) (lg : bool) (w : world)
    (enc : jsstring) (t : N) (resp : response) (ct : jsstring)
    (bytes : list N) :
  isBlank p = false ->
  encodeURIComponent (trim (truncated p)) = Normal enc ->
  fetch (calls w)
    (ImageGenerationTool.imageUrlTemplate enc
       (clampDimension (withDefault 1024%Z width))
       (clampDimension (withDefault 1024%Z height)))
    = Settles t (Normal resp) ->
  (t < 30000)%N ->
  ok resp = true ->
  contentTypeHeader resp = Some ct ->
  startsWith ct (lit "image/") = true ->
  arrayBuffer resp = Normal bytes ->
  exists r b,
    outcome (ImageGenerationTool.execute fetch p width height lg) w = Normal r /\
    ImageGenerationTool.success r = true /\
    ImageGenerationTool.imageBase64 r = Some b /\
    b = base64 bytes /\
    length b = 4 * ((length bytes + 2) / 3) /\
    forallb inBase64Alphabet b = true.
Proof.
  intros B Enc F T Ok Ct Sw Body.
  apply N.ltb_lt in T.
  rewrite image_outcome, B, Enc. cbv zeta.
  rewrite F. unfold fetchWithAbortTimer.
  rewrite T, Ok, Ct, Sw, Body.
  destruct ct as [|c ct']; [discriminate Sw|].
  do 2 eexists. split; [reflexivity|]. split; [reflexivity|].
  split; [reflexivity|]. split; [reflexivity|]. apply base64_shape.
Qed.

(** The same on an endpoint that serves four octets. *)
Lemma image_is_returned_as_padded_base64_witness :
  isBlank (lit "a cat in a garden") = false /\
  exists r b,
    outcome (ImageGenerationTool.execute pngEndpoint (lit "a cat in a garden")
               None None false) emptyWorld = Normal r /\
    ImageGenerationTool.success r = true /\
    ImageGenerationTool.imageBase64 r = Some b /\
    b = base64 [137; 80; 78; 71]%N /\
    length b = 4 * ((length [137; 80; 78; 71]%N + 2) / 3) /\
    forallb inBase64Alphabet b = true.
Proof.
  split; [reflexivity|].
  apply (image_is_returned_as_padded_base64 pngEndpoint
           (lit "a cat in a garden") None None false emptyWorld
           (lit "a%20cat%20in%20a%20garden") 1200
           (mkResponse 200 (lit "OK") (Some (lit "image/png"))
              (Normal [137; 80; 78; 71]%N))
           (lit "image/png") [137; 80; 78; 71]%N);
    reflexivity.
Defined.

(** ** More on the ASCII-art fallback *)

(** X11. The fallback stage reports success exactly when the prompt is not
    blank and both calls are answered, the second one on the history
    that includes the first; the result then carries the two answers
    trimmed, and in every outcome it hands back the prompt it was
    given. *)
Theorem ascii_succeeds_exactly_when_both_calls_answer gt (p : jsstring)
    (lg : bool) (w : world) :
  let first :=
    gt (calls w) AsciiArtFallbackTool.model
       (AsciiArtFallbackTool.artInstruction p) in
  let second :=
    gt (calls w ++
        [GenerateTextCall AsciiArtFallbackTool.model
           (AsciiArtFallbackTool.artInstruction p)])
       AsciiArtFallbackTool.model
       (AsciiArtFallbackTool.descriptionInstruction p) in
  exists r,
    outcome (AsciiArtFallbackTool.execute gt p lg) w = Normal r /\
    (AsciiArtFallbackTool.success r = true <->
     isBlank p = false /\
     exists art text, first = Normal art /\ second = Normal text) /\
    (forall art text,
       isBlank p = false -> first = Normal art -> second = Normal text ->
       AsciiArtFallbackTool.asciiArt r = trim art /\
       AsciiArtFallbackTool.description r = trim text /\
       AsciiArtFallbackTool.error r = None) /\
    AsciiArtFallbackTool.originalPrompt r = p.
Proof.
  intros first second.
  rewrite ascii_outcome. fold first. fold second.
  eexists. split; [reflexivity|].
  destruct (isBlank p).
  - simpl. split; [|split; [|reflexivity]].
    + split; [discriminate|]. intros [B _]. discriminate B.
    + intros art text B. discriminate B.
  - destruct first as [art|e]; [destruct second as [text|e]|]; simpl.
    + split; [|split; [|reflexivity]].
      * split; [|reflexivity]. intros _. split; [reflexivity|].
        exists art, text. split; reflexivity.
      * intros art' text' _ E1 E2.
        injection E1 as <-. injection E2 as <-. repeat split.
    + split; [|split; [|reflexivity]].
      * split; [discriminate|]. intros [_ [a [t [_ E]]]]. discriminate E.
      * intros art' text' _ _ E. discriminate E.
    + split; [|split; [|reflexivity]].
      * split; [discriminate|]. intros [_ [a [t [E _]]]]. discriminate E.
      * intros art' text' _ E. discriminate E.
Qed.

(** ** More on the Telegram reply tool *)

(** X12. The preview of a reply is the message itself when it has at most
    100 code units, and its first 100 code units followed by three dots
    otherwise, so never more than 103 code units; the time stamp is the
    clock's reading. *)
Theorem reply_preview_is_at_most_103_long
    (now : list ext_call -> jsstring) (chatId message : jsstring)
    (imageData : option jsstring) (lg : bool) (w : world) :
  exists r,
    outcome (TelegramReplyTool.execute now chatId message imageData lg) w
      = Normal r /\
    (length message <= 100 -> TelegramReplyTool.messagePreview r = message) /\
    (100 < length message ->
     TelegramReplyTool.messagePreview r = firstn 100 message ++ lit "...") /\
    length (TelegramReplyTool.messagePreview r) <= 103 /\
    TelegramReplyTool.sentAt r = now (calls w).
Proof.
  assert (Preview :
    (length message <= 100 ->
     substring message 0 100 ++
     (if Nat.ltb 100 (length message) then lit "..." else []) = message) /\
    (100 < length message ->
     substring message 0 100 ++
     (if Nat.ltb 100 (length message) then lit "..." else [])
     = firstn 100 message ++ lit "...") /\
    length (substring message 0 100 ++
            (if Nat.ltb 100 (length message) then lit "..." else [])) <= 103).
  { rewrite substring_prefix.
    destruct (Nat.ltb 100 (length message)) eqn:L.
    - apply Nat.ltb_lt in L. split; [lia|]. split; [reflexivity|].
      rewrite length_app, firstn_length_le by lia. simpl. lia.
    - apply Nat.ltb_ge in L. rewrite app_nil_r, firstn_all2 by exact L.
      split; [reflexivity|]. split; lia. }
  destruct Preview as [Short [Long Bound]].
  run.
  destruct lg; simpl;
    (eexists; split; [reflexivity|]; simpl;
     split; [exact Short|]; split; [exact Long|];
     split; [exact Bound|reflexivity]).
Qed.

(** ** More on the workflow *)

(** Unfolding of the workflow steps down to the state-passing
    functions. *)
Ltac run_step :=
  unfold outcome, callsAfter, Workflow.telegramImageBotWorkflow,
    Workflow.useAgentStep, Workflow.sendReplyStep,
    try_catch, bind, ret, throw, lift, external, log, when.

(** X13. The parsing step either throws before the agent is called, or
    calls the agent exactly once, as [telegram-bot] on the thread of the
    input with at most 5 steps, and then returns the agent's text or
    throws the agent's rejection. The message it passes on is the empty
    string or a truthy value, and a string whenever a logger is present;
    the chat id it returns is never empty. *)
Theorem agent_step_fails_early_or_calls_the_agent_once
    (formatNumber : number -> jsstring)
    (agentGenerate : list ext_call -> value -> jsstring -> completion jsstring)
    (input : Workflow.inputData) (lg : bool) (w : world) :
  ((exists e,
      outcome (Workflow.useAgentStep formatNumber agentGenerate input lg) w
        = Throw e) /\
   callsAfter (Workflow.useAgentStep formatNumber agentGenerate input lg) w
     = calls w)
  \/
  (exists content chat,
     callsAfter (Workflow.useAgentStep formatNumber agentGenerate input lg) w
       = calls w ++
         [AgentGenerateCall content (lit "telegram-bot")
            (Workflow.threadId input) 5] /\
     outcome (Workflow.useAgentStep formatNumber agentGenerate input lg) w
       = match agentGenerate (calls w) content (Workflow.threadId input) with
         | Normal text => Normal (Workflow.mkAgentOutput text chat content)
         | Throw e => Throw e
         end /\
     chat <> [] /\
     (content = VString [] \/ valueTruthy content = true) /\
     (lg = true -> exists s, content = VString s)).
Proof.
  run_step.
  destruct (Json.parse (Workflow.message input)) as [messageData|e];
    [|left; destruct lg; simpl; split; eauto].
  destruct (get messageData (lit "message")) as [m|e];
    [|left; destruct lg; simpl; split; eauto].
  assert (Chat : forall idString : option jsstring,
            match idString with
            | Some s => if truthy s then s else lit "unknown"
            | None => lit "unknown"
            end <> []).
  { intros [[|c s]|]; simpl; discriminate. }
  assert (Text : forall text : value,
            (if valueTruthy text then text else VString []) = VString [] \/
            valueTruthy (if valueTruthy text then text else VString []) = true).
  { intros text. destruct (valueTruthy text) eqn:T; [right; exact T|left; reflexivity]. }
  destruct lg; simpl.
  - destruct (optionalGet m (lit "chat")) as [chat|e]; simpl;
      [|left; split; eauto].
    destruct (optionalGet chat (lit "id")) as [id|e]; simpl;
      [|left; split; eauto].
    destruct (optionalCallToString formatNumber
                (lit "messageData.message?.chat?.id?.toString") id)
      as [idString|e]; simpl; [|left; split; eauto].
    destruct (optionalGet m (lit "text")) as [text|e]; simpl;
      [|left; split; eauto].
    destruct (callSubstring (lit "messageText.substring")
                (if valueTruthy text then text else VString []) 0 100)
      as [sub|e] eqn:Sub; simpl; [|left; split; eauto].
    right.
    exists (if valueTruthy text then text else VString []),
           (match idString with
            | Some s => if truthy s then s else lit "unknown"
            | None => lit "unknown"
            end).
    split; [|split].
    + destruct (agentGenerate (calls w)
                  (if valueTruthy text then text else VString [])
                  (Workflow.threadId input)); reflexivity.
    + destruct (agentGenerate (calls w)
                  (if valueTruthy text then text else VString [])
                  (Workflow.threadId input)); reflexivity.
    + split; [apply Chat|]. split; [apply Text|].
      intros _.
      destruct (if valueTruthy text then text else VString []);
        try discriminate Sub.
      eexists. reflexivity.
  - destruct (optionalGet m (lit "chat")) as [chat|e]; simpl;
      [|left; split; eauto].
    destruct (optionalGet chat (lit "id")) as [id|e]; simpl;
      [|left; split; eauto].
    destruct (optionalCallToString formatNumber
                (lit "messageData.message?.chat?.id?.toString") id)
      as [idString|e]; simpl; [|left; split; eauto].
    destruct (optionalGet m (lit "text")) as [text|e]; simpl;
      [|left; split; eauto].
    right.
    exists (if valueTruthy text then text else VString []),
           (match idString with
            | Some s => if truthy s then s else lit "unknown"
            | None => lit "unknown"
            end).
    split; [|split].
    + destruct (agentGenerate (calls w)
                  (if valueTruthy text then text else VString [])
                  (Workflow.threadId input)); reflexivity.
    + destruct (agentGenerate (calls w)
                  (if valueTruthy text then text else VString [])
                  (Workflow.threadId input)); reflexivity.
    + split; [apply Chat|]. split; [apply Text|].
      intros Impossible. discriminate Impossible.
Qed.

(** With a logger, a message that the parsing step passes on is a
    string. *)
Lemma logged_agent_step_passes_on_a_string
    (formatNumber : number -> jsstring)
    (agentGenerate : list ext_call -> value -> jsstring -> completion jsstring)
    (input : Workflow.inputData) (w : world) (out : Workflow.agentOutput) :
  outcome (Workflow.useAgentStep formatNumber agentGenerate input true) w
    = Normal out ->
  exists s, Workflow.messageText out = VString s.
Proof.
  run_step. simpl.
  destruct (Json.parse (Workflow.message input)) as [messageData|e];
    [|discriminate].
  destruct (get messageData (lit "message")) as [m|e]; [|discriminate].
  simpl.
  destruct (optionalGet m (lit "chat")) as [chat|e]; [|discriminate].
  simpl.
  destruct (optionalGet chat (lit "id")) as [id|e]; [|discriminate].
  simpl.
  destruct (optionalCallToString formatNumber
              (lit "messageData.message?.chat?.id?.toString") id)
    as [idString|e]; [|discriminate].
  simpl.
  destruct (optionalGet m (lit "text")) as [text|e]; [|discriminate].
  simpl.
  destruct (callSubstring (lit "messageText.substring")
              (if valueTruthy text then text else VString []) 0 100)
    as [sub|e] eqn:Sub; [|discriminate].
  simpl.
  destruct (agentGenerate (calls w)
              (if valueTruthy text then text else VString [])
              (Workflow.threadId input)) as [answer|e]; [|discriminate].
  simpl. intros E. injection E as <-. simpl.
  destruct (if valueTruthy text then text else VString []);
    try discriminate Sub.
  eexists. reflexivity.
Qed.

(** X14. The reply step never throws and places no call; it hands back the
    chat id it was given. It reports [sent = false] exactly when a logger
    is present and the message it was given is not a string, the one case
    in which the line logged inside its [try] block throws. On whatever
    the parsing step returns under the same logger it reports
    [sent = true]. *)
Theorem reply_step_fails_only_on_a_logged_non_string_message
    (out : Workflow.agentOutput) (lg : bool) (w : world) :
  exists r,
    outcome (Workflow.sendReplyStep out lg) w = Normal r /\
    Workflow.replyChatId r = Workflow.chatId out /\
    callsAfter (Workflow.sendReplyStep out lg) w = calls w /\
    (Workflow.sent r = false <->
     lg = true /\ forall s, Workflow.messageText out <> VString s) /\
    (forall formatNumber agentGenerate input w0,
       outcome (Workflow.useAgentStep formatNumber agentGenerate input lg) w0
         = Normal out ->
       Workflow.sent r = true).
Proof.
  run_step. destruct lg; simpl.
  - destruct (Workflow.messageText out) as [| |b|n|s|elements|members] eqn:Text;
      simpl; eexists; (split; [reflexivity|]); simpl;
      (split; [reflexivity|]); (split; [reflexivity|]); split.
    all: try (split; [intros _; split; [reflexivity|discriminate]
                     |reflexivity]).
    all: try (intros formatNumber agentGenerate input w0 Run;
              destruct (logged_agent_step_passes_on_a_string
                          formatNumber agentGenerate input w0 out Run)
                as [s' Str];
              rewrite Text in Str; discriminate Str).
    + split; [discriminate|].
      intros [_ NotString]. exfalso. apply (NotString s). reflexivity.
    + intros; reflexivity.
  - eexists. split; [reflexivity|]. simpl.
    split; [reflexivity|]. split; [reflexivity|]. split.
    + split; [discriminate|]. intros [Impossible _]. discriminate Impossible.
    + intros; reflexivity.
Qed.

(** X15. An envelope of the shape Telegram sends, with a numeric chat id
    and a non-empty text, is read as follows: the agent is called once
    with that text, and the step returns the agent's answer, or throws
    its rejection, together with the text and the chat id printed as a
    number. *)
Theorem telegram_envelope_is_read
    (formatNumber : number -> jsstring)
    (agentGenerate : list ext_call -> value -> jsstring -> completion jsstring)
    (input : Workflow.inputData) (lg : bool) (w : world)
    (envelope msg chat : list (jsstring * value)) (n : number)
    (t : jsstring) :
  Json.parse (Workflow.message input) = Normal (VObject envelope) ->
  getOwn envelope (lit "message") = Some (VObject msg) ->
  getOwn msg (lit "chat") = Some (VObject chat) ->
  getOwn chat (lit "id") = Some (VNumber n) ->
  getOwn msg (lit "text") = Some (VString t) ->
  t <> [] ->
  outcome (Workflow.useAgentStep formatNumber agentGenerate input lg) w =
  match agentGenerate (calls w) (VString t) (Workflow.threadId input) with
  | Normal text =>
      Normal (Workflow.mkAgentOutput text
                (if truthy (formatNumber n) then formatNumber n
                 else lit "unknown")
                (VString t))
  | Throw e => Throw e
  end /\
  callsAfter (Workflow.useAgentStep formatNumber agentGenerate input lg) w =
  calls w ++
  [AgentGenerateCall (VString t) (lit "telegram-bot")
     (Workflow.threadId input) 5].
Proof.
  intros Parse Msg Chat Id Text NE.
  run_step. rewrite Parse.
  unfold get, optionalGet, get. rewrite Msg, Chat, Id.
  unfold optionalCallToString, ToString. rewrite Text.
  destruct t as [|c t']; [exfalso; apply NE; reflexivity|].
  destruct lg; simpl;
    destruct (agentGenerate (calls w) (VString (c :: t'))
                (Workflow.threadId input)); split; reflexivity.
Qed.

(** The same on a sample envelope. *)
Lemma telegram_envelope_is_read_witness :
  outcome (Workflow.useAgentStep mantissaFormat echoAgent
             (Workflow.mkInput telegramEnvelope (lit "thread-1")) true)
    emptyWorld =
  Normal (Workflow.mkAgentOutput (lit "done") (lit "12345")
            (VString (lit "a cat in a garden"))) /\
  callsAfter (Workflow.useAgentStep mantissaFormat echoAgent
                (Workflow.mkInput telegramEnvelope (lit "thread-1")) true)
    emptyWorld =
  calls emptyWorld ++
  [AgentGenerateCall (VString (lit "a cat in a garden")) (lit "telegram-bot")
     (lit "thread-1") 5].
Proof.
  apply (telegram_envelope_is_read mantissaFormat echoAgent
           (Workflow.mkInput telegramEnvelope (lit "thread-1")) true
           emptyWorld
           [(lit "update_id", VNumber (mkNumber false 7 0));
            (lit "message",
             VObject
               [(lit "message_id", VNumber (mkNumber false 3 0));
                (lit "chat",
                 VObject [(lit "id", VNumber (mkNumber false 12345 0));
                          (lit "type", VString (lit "private"))]);
                (lit "text", VString (lit "a cat in a garden"))])]
           [(lit "message_id", VNumber (mkNumber false 3 0));
            (lit "chat",
             VObject [(lit "id", VNumber (mkNumber false 12345 0));
                      (lit "type", VString (lit "private"))]);
            (lit "text", VString (lit "a cat in a garden"))]
           [(lit "id", VNumber (mkNumber false 12345 0));
            (lit "type", VString (lit "private"))]
           (mkNumber false 12345 0)
           (lit "a cat in a garden")).
  - reflexivity.
  - reflexivity.
  - reflexivity.
  - reflexivity.
  - reflexivity.
  - discriminate.
Defined.

(** X16. A text that is not a string makes the step depend on the logger:
    when the step, run without a logger, passes on a message that is not
    a string, the same step run with a logger throws a [TypeError]
    before the agent is called; when the message is a string, the logger
    makes no difference to the result. *)
Theorem non_string_text_fails_only_under_a_logger
    (formatNumber : number -> jsstring)
    (agentGenerate : list ext_call -> value -> jsstring -> completion jsstring)
    (input : Workflow.inputData) (w : world) (out : Workflow.agentOutput) :
  outcome (Workflow.useAgentStep formatNumber agentGenerate input false) w
    = Normal out ->
  match Workflow.messageText out with
  | VString _ =>
      outcome (Workflow.useAgentStep formatNumber agentGenerate input true) w
        = Normal out
  | _ =>
      outcome (Workflow.useAgentStep formatNumber agentGenerate input true) w
        = Throw (typeError (lit "messageText.substring is not a function")) /\
      callsAfter (Workflow.useAgentStep formatNumber agentGenerate input true) w
        = calls w
  end.
Proof.
  run_step. simpl.
  destruct (Json.parse (Workflow.message input)) as [messageData|e];
    [|discriminate].
  destruct (get messageData (lit "message")) as [m|e]; [|discriminate].
  simpl.
  destruct (optionalGet m (lit "chat")) as [chat|e]; [|discriminate].
  simpl.
  destruct (optionalGet chat (lit "id")) as [id|e]; [|discriminate].
  simpl.
  destruct (optionalCallToString formatNumber
              (lit "messageData.message?.chat?.id?.toString") id)
    as [idString|e]; [|discriminate].
  simpl.
  destruct (optionalGet m (lit "text")) as [text|e]; [|discriminate].
  simpl.
  destruct (agentGenerate (calls w)
              (if valueTruthy text then text else VString [])
              (Workflow.threadId input)) as [answer|e] eqn:Agent;
    [|discriminate].
  simpl. intros E. injection E as <-. simpl.
  destruct text as [| |b|n|s|elements|members]; simpl in *;
    try (rewrite Agent; reflexivity).
  - destruct b; simpl in *; [split; reflexivity|rewrite Agent; reflexivity].
  - destruct (numberIsZero n); simpl in *;
      [rewrite Agent; reflexivity|split; reflexivity].
  - destruct (truthy s); simpl in *; rewrite Agent; reflexivity.
  - split; reflexivity.
  - split; reflexivity.
Qed.

(** The same on an envelope whose text is the number 5. *)
Lemma non_string_text_fails_only_under_a_logger_witness :
  outcome (Workflow.useAgentStep mantissaFormat echoAgent
             (Workflow.mkInput numericTextEnvelope (lit "thread-1")) false)
    emptyWorld =
  Normal (Workflow.mkAgentOutput (lit "done") (lit "c-9")
            (VNumber (mkNumber false 5 0))) /\
  outcome (Workflow.useAgentStep mantissaFormat echoAgent
             (Workflow.mkInput numericTextEnvelope (lit "thread-1")) true)
    emptyWorld =
  Throw (typeError (lit "messageText.substring is not a function")) /\
  callsAfter (Workflow.useAgentStep mantissaFormat echoAgent
                (Workflow.mkInput numericTextEnvelope (lit "thread-1")) true)
    emptyWorld = calls emptyWorld.
Proof.
  split; [reflexivity|].
  apply (non_string_text_fails_only_under_a_logger mantissaFormat echoAgent
           (Workflow.mkInput numericTextEnvelope (lit "thread-1"))
           emptyWorld
           (Workflow.mkAgentOutput (lit "done") (lit "c-9")
              (VNumber (mkNumber false 5 0)))).
  reflexivity.
Defined.

(** X17. An envelope that is a JSON object without a [message], or whose
    [message] is an object with neither [text] nor [chat], is read as
    the empty prompt from the chat [unknown]: the agent is called with
    the empty string. *)
Theorem envelope_without_text_is_read_as_the_empty_prompt
    (formatNumber : number -> jsstring)
    (agentGenerate : list ext_call -> value -> jsstring -> completion jsstring)
    (input : Workflow.inputData) (lg : bool) (w : world)
    (envelope : list (jsstring * value)) :
  Json.parse (Workflow.message input) = Normal (VObject envelope) ->
  (getOwn envelope (lit "message") = None \/
   exists msg,
     getOwn envelope (lit "message") = Some (VObject msg) /\
     getOwn msg (lit "text") = None /\
     getOwn msg (lit "chat") = None) ->
  outcome (Workflow.useAgentStep formatNumber agentGenerate input lg) w =
  match agentGenerate (calls w) (VString []) (Workflow.threadId input) with
  | Normal text =>
      Normal (Workflow.mkAgentOutput text (lit "unknown") (VString []))
  | Throw e => Throw e
  end /\
  callsAfter (Workflow.useAgentStep formatNumber agentGenerate input lg) w =
  calls w ++
  [AgentGenerateCall (VString []) (lit "telegram-bot")
     (Workflow.threadId input) 5].
Proof.
  intros Parse Shape.
  run_step. rewrite Parse.
  unfold get.
  destruct Shape as [NoMsg | [msg [Msg [NoText NoChat]]]].
  - rewrite NoMsg.
    destruct lg; simpl;
      destruct (agentGenerate (calls w) (VString [])
                  (Workflow.threadId input)); split; reflexivity.
  - rewrite Msg. unfold optionalGet, get. rewrite NoText, NoChat.
    destruct lg; simpl;
      destruct (agentGenerate (calls w) (VString [])
                  (Workflow.threadId input)); split; reflexivity.
Qed.

(** The same on the envelope made of an empty object. *)
Lemma envelope_without_text_is_read_as_the_empty_prompt_witness :
  outcome (Workflow.useAgentStep mantissaFormat echoAgent
             (Workflow.mkInput (lit "{}") (lit "thread-1")) true) emptyWorld =
  Normal (Workflow.mkAgentOutput (lit "done") (lit "unknown") (VString [])) /\
  callsAfter (Workflow.useAgentStep mantissaFormat echoAgent
                (Workflow.mkInput (lit "{}") (lit "thread-1")) true)
    emptyWorld =
  calls emptyWorld ++
  [AgentGenerateCall (VString []) (lit "telegram-bot") (lit "thread-1") 5].
Proof.
  apply (envelope_without_text_is_read_as_the_empty_prompt mantissaFormat
           echoAgent (Workflow.mkInput (lit "{}") (lit "thread-1")) true
           emptyWorld []).
  - reflexivity.
  - left. reflexivity.
Defined.

(** ** The tools and the functions behind them *)

(** X18. Each tool's [execute] returns exactly what the function behind it
    returns on the same inputs and places the same calls: the wrapper
    only logs. *)
Theorem execute_returns_what_the_function_returns
    (generateText : list ext_call -> jsstring -> jsstring -> completion jsstring)
    (fetch : list ext_call -> jsstring -> fetch_outcome)
    (now : list ext_call -> jsstring)
    (p chatId : jsstring) (style imageData : option jsstring)
    (width height : option Z) (lg : bool) (w : world) :
  (outcome (PromptEnhancerTool.execute generateText p style lg) w =
   outcome (PromptEnhancerTool.enhancePrompt generateText p style lg) w /\
   callsAfter (PromptEnhancerTool.execute generateText p style lg) w =
   callsAfter (PromptEnhancerTool.enhancePrompt generateText p style lg) w) /\
  (outcome (ImageGenerationTool.execute fetch p width height lg) w =
   outcome (ImageGenerationTool.generateImage fetch p width height lg) w /\
   callsAfter (ImageGenerationTool.execute fetch p width height lg) w =
   callsAfter (ImageGenerationTool.generateImage fetch p width height lg) w) /\
  (outcome (AsciiArtFallbackTool.execute generateText p lg) w =
   outcome (AsciiArtFallbackTool.generateAsciiArt generateText p lg) w /\
   callsAfter (AsciiArtFallbackTool.execute generateText p lg) w =
   callsAfter (AsciiArtFallbackTool.generateAsciiArt generateText p lg) w) /\
  (outcome (TelegramReplyTool.execute now chatId p imageData lg) w =
   outcome (TelegramReplyTool.sendTelegramMessage now chatId p imageData lg) w /\
   callsAfter (TelegramReplyTool.execute now chatId p imageData lg) w =
   callsAfter (TelegramReplyTool.sendTelegramMessage now chatId p imageData lg) w).
Proof.
  split; [|split; [|split]].
  - run. destruct lg; simpl; cases; split; reflexivity.
  - run. destruct lg; simpl; cases; split; reflexivity.
  - run. destruct lg; simpl; cases; split; reflexivity.
  - run. destruct lg; simpl; split; reflexivity.
Qed.

(** ** Sample runs *)

(** A model that is down: the enhancer falls back, after one call, in a
    world that already has a call on record. *)
Example enhancer_falls_back_when_the_model_is_down :
  outcome (PromptEnhancerTool.execute failingModel (lit "a cat")
             (Some (lit "cartoon")) true) busyWorld =
  Normal (PromptEnhancerTool.mkResult false
            (lit "a cat, high quality, detailed, cartoon style, professional photography")
            (lit "a cat") (lit "cartoon")
            (lit "Prompt enhancement failed, using fallback: network down")
            (Some (lit "network down"))) /\
  length (callsAfter (PromptEnhancerTool.execute failingModel (lit "a cat")
                        (Some (lit "cartoon")) true) busyWorld) = 2.
Proof. split; reflexivity. Qed.

(** An agent that is down: the workflow ends with the agent's rejection. *)
Example workflow_ends_with_the_agent_rejection :
  outcome (Workflow.telegramImageBotWorkflow mantissaFormat failingAgent
             (Workflow.mkInput telegramEnvelope (lit "thread-1")) true)
    emptyWorld =
  Throw (newError (lit "agent unavailable")).
Proof. reflexivity. Qed.

(** The whole path of a good message: the workflow reports the reply as
    sent to the chat of the envelope. *)
Example workflow_replies_to_the_chat_of_the_envelope :
  outcome (Workflow.telegramImageBotWorkflow mantissaFormat echoAgent
             (Workflow.mkInput telegramEnvelope (lit "thread-1")) true)
    emptyWorld =
  Normal (Workflow.mkReplyOutput true (lit "12345")).
Proof. reflexivity. Qed.
